(** * vercel-koa2/index.js: the PDF-to-Word conversion service

    A shallow embedding of the Express application of
    [src/vercel-koa2/index.js]: the multer upload stage, the
    [POST /api/convert] handler with its [try]/[catch], the in-memory
    [conversionHistory] and the read-only endpoints.  The file system is a
    finite map from path to contents, the handler is written in a small
    state-and-exception monad, and everything the program obtains from its
    libraries or its environment (the clock, the random generator,
    [pdf-parse], [docx], failures of [fs]) is a field of an [Oracle]. *)

From Stdlib Require Import ZArith List Ascii String Lia.
From Stdlib Require Import Decimal DecimalString DecimalZ.
From stdpp Require Import base option list sorting strings gmap.

Local Open Scope string_scope.
Local Open Scope Z_scope.

(** ** JavaScript strings and numbers *)

Module Js.

(** [String(n)] for an integral Number [n] below 1e21: decimal digits, a
    leading [-] when negative. *)
Definition toString (n : Z) : string :=
  NilZero.string_of_int (Z.to_int n).

(** [s.startsWith(p)]. *)
Fixpoint startsWith (p s : string) : bool :=
  match p, s with
  | EmptyString, _ => true
  | String a p', String b s' =>
      if Ascii.eqb a b then startsWith p' s' else false
  | String _ _, EmptyString => false
  end.

(** Drops the first [n] characters. *)
Fixpoint dropChars (n : nat) (s : string) : string :=
  match n, s with
  | O, _ => s
  | S n', String _ s' => dropChars n' s'
  | S _, EmptyString => EmptyString
  end.

(** [s.replace(pat, rep)] with a string pattern: only the FIRST occurrence
    of [pat] is replaced ([rep] is used here without [$] patterns). *)
Fixpoint replace (pat rep s : string) : string :=
  if startsWith pat s then rep ++ dropChars (String.length pat) s
  else match s with
       | EmptyString => EmptyString
       | String c s' => String c (replace pat rep s')
       end.

(** [a || b] on strings: the empty string is falsy. *)
Definition or_else (a b : string) : string :=
  match a with
  | EmptyString => b
  | _ => a
  end.

(** [path.join(dir, name)] for a simple [dir] and a simple [name] (no
    separator, not [.] or [..]): for those nothing is normalised and the
    result is the concatenation. *)
Definition path_join (dir name : string) : string :=
  dir ++ "/" ++ name.

End Js.

(** ** Values exchanged with the client *)

(** The JavaScript values the program builds and passes to [res.json]:
    an object is its list of properties in creation order, a [Date] is its
    epoch time in milliseconds. *)
#[warnings="-register-all"] Inductive Json : Type :=
  | JBool (b : bool)
  | JStr (s : string)
  | JDate (ms : Z)
  | JArr (items : list Json)
  | JObj (props : list (string * Json)).

Definition JsObject : Type := list (string * Json).

(** [obj.key]: [None] stands for [undefined], the property is absent. *)
Fixpoint prop (key : string) (obj : JsObject) : option Json :=
  match obj with
  | [] => None
  | (k, v) :: rest => if String.eqb k key then Some v else prop key rest
  end.

Definition has_prop (key : string) (obj : JsObject) : Prop :=
  is_Some (prop key obj).

(** What a handler sends: [res.status(c).json(v)] or [res.download(p)]. *)
Inductive Body : Type :=
  | JsonBody (v : Json)
  | FileBody (path : string) (data : list Byte.byte).

Record Response : Type := mkResponse {
  status : Z;
  body : Body
}.

Definition res_json (code : Z) (v : Json) : Response :=
  {| status := code; body := JsonBody v |}.

(** An [Error] object, as far as the program looks at it. *)
Record JsError : Type := mkError { message : string }.

Inductive Outcome (A : Type) : Type :=
  | Return (a : A)
  | Throw (e : JsError).
Arguments Return {A} a.
Arguments Throw {A} e.

(** ** Requests, uploaded files, documents *)

(** The file part of a multipart body, as multer sees it: the field name,
    file name, MIME type and bytes that the multipart parser hands over.
    Multer treats a part as a file only when it has a file name; a part
    without one is not a file to it, so a [FilePart] with an empty
    [originalname] stands for nothing the program can receive. *)
Record FilePart : Type := mkPart {
  fieldname : string;
  originalname : string;
  mimetype : string;
  content : list Byte.byte
}.

(** A [POST /api/convert] request: its file part, if it has one. *)
Record Request : Type := mkRequest { part : option FilePart }.

(** [req.file] as multer's disk storage fills it in. *)
Record MulterFile : Type := mkFile {
  file_fieldname : string;
  file_originalname : string;
  file_mimetype : string;
  filename : string;
  path : string
}.

(** The [docx] document tree the handler builds (lines 80-95). *)
Record TextRun : Type := mkTextRun { text : string; size : Z; font : string }.
Record Paragraph : Type := mkParagraph { runs : list TextRun }.
Record DocSection : Type := mkSection { children : list Paragraph }.
Record Document : Type := mkDocument { sections : list DocSection }.

(** ** The environment *)

Inductive FsOp : Type := OpRead | OpWrite | OpUnlink.

(** Everything the program does not compute itself.  The [k]-th call of
    [Date.now()] (or [new Date()]) returns [Date_now k]; the [k]-th
    evaluation of [Math.round(Math.random() * 1E9)] returns
    [random_1e9 k]; [pdfParse] and [Packer_toBuffer] are the two library
    promises, resolved or rejected; [fs_fault op p] is the error, if any,
    with which the operating system refuses [op] on path [p]. *)
Record Oracle : Type := mkOracle {
  Date_now : nat -> Z;
  random_1e9 : nat -> Z;
  pdfParse : list Byte.byte -> Outcome string;
  Packer_toBuffer : Document -> Outcome (list Byte.byte);
  fs_fault : FsOp -> string -> option JsError;
  toISOString : Z -> string
}.

(** ** The state of the process *)

(** [files] is the disk (the staging area is the paths under [uploads/],
    the output area those under [downloads/]); [conversionHistory] is the
    module-level array of line 58; the two counters say how many clock
    readings and random draws have been consumed.  Directories are not
    part of the state: lines 24-30 and 52-55 create [uploads] and
    [downloads] when they are absent. *)
Record World : Type := mkWorld {
  files : gmap string (list Byte.byte);
  conversionHistory : list JsObject;
  clock_reads : nat;
  random_reads : nat
}.

Definition init_world : World :=
  {| files := ∅; conversionHistory := []; clock_reads := 0; random_reads := 0 |}.

Definition set_files (f : gmap string (list Byte.byte)) (w : World) : World :=
  {| files := f; conversionHistory := conversionHistory w;
     clock_reads := clock_reads w; random_reads := random_reads w |}.

Definition set_history (h : list JsObject) (w : World) : World :=
  {| files := files w; conversionHistory := h;
     clock_reads := clock_reads w; random_reads := random_reads w |}.

(** ** A state-and-exception monad for handler code *)

Definition M (A : Type) : Type := World -> Outcome A * World.

Definition ret {A} (a : A) : M A := fun w => (Return a, w).

Definition throw {A} (e : JsError) : M A := fun w => (Throw e, w).

Definition bind {A B} (m : M A) (k : A -> M B) : M B :=
  fun w =>
    match m w with
    | (Return a, w') => k a w'
    | (Throw e, w') => (Throw e, w')
    end.

(** [try { body } catch (error) { handler error }]. *)
Definition try_catch {A} (body : M A) (handler : JsError -> M A) : M A :=
  fun w =>
    match body w with
    | (Return a, w') => (Return a, w')
    | (Throw e, w') => handler e w'
    end.

(** [await p] for a promise that has settled with [p]. *)
Definition await {A} (p : Outcome A) : M A := fun w => (p, w).

Declare Scope js_scope.
Delimit Scope js_scope with js.
Notation "'let*' x ':=' m 'in' k" := (bind m (fun x => k))
  (at level 10, x name, m at level 100, k at level 200) : js_scope.
Notation "'run*' m 'in' k" := (bind m (fun _ => k))
  (at level 10, m at level 100, k at level 200) : js_scope.
Local Open Scope js_scope.

(** ** The program *)

Section Program.

Context (o : Oracle).

(** *** Primitives *)

(** [Date.now()], and the time value of [new Date()]. *)
Definition now : M Z :=
  fun w =>
    (Return (Date_now o (clock_reads w)),
     {| files := files w; conversionHistory := conversionHistory w;
        clock_reads := S (clock_reads w); random_reads := random_reads w |}).

(** [Math.round(Math.random() * 1E9)]. *)
Definition random : M Z :=
  fun w =>
    (Return (random_1e9 o (random_reads w)),
     {| files := files w; conversionHistory := conversionHistory w;
        clock_reads := clock_reads w; random_reads := S (random_reads w) |}).

Definition ENOENT (syscall p : string) : JsError :=
  {| message := "ENOENT: no such file or directory, " ++ syscall
                  ++ " '" ++ p ++ "'" |}.

(** [fs.readFileSync(p)]. *)
Definition readFileSync (p : string) : M (list Byte.byte) :=
  fun w =>
    match fs_fault o OpRead p with
    | Some e => (Throw e, w)
    | None =>
        match files w !! p with
        | Some data => (Return data, w)
        | None => (Throw (ENOENT "open" p), w)
        end
    end.

(** [fs.writeFileSync(p, data)]. *)
Definition writeFileSync (p : string) (data : list Byte.byte) : M unit :=
  fun w =>
    match fs_fault o OpWrite p with
    | Some e => (Throw e, w)
    | None => (Return tt, set_files (<[p := data]> (files w)) w)
    end.

(** [fs.unlinkSync(p)]. *)
Definition unlinkSync (p : string) : M unit :=
  fun w =>
    match fs_fault o OpUnlink p with
    | Some e => (Throw e, w)
    | None =>
        match files w !! p with
        | Some _ => (Return tt, set_files (delete p (files w)) w)
        | None => (Throw (ENOENT "unlink" p), w)
        end
    end.

(** [fs.existsSync(p)]. *)
Definition existsSync (p : string) : M bool :=
  fun w => (Return (bool_decide (is_Some (files w !! p))), w).

(** [conversionHistory.unshift(item)]. *)
Definition unshift (item : JsObject) : M unit :=
  fun w => (Return tt, set_history (item :: conversionHistory w) w).

(** *** Upload (lines 23-49) *)

Definition uploadDir : string := "uploads".
Definition downloadDir : string := "downloads".

(** [storage.filename] (lines 31-34). *)
Definition storage_filename (file : FilePart) : M string :=
  let* t := now in
  let* r := random in
  let uniqueSuffix := (Js.toString t ++ "-") ++ Js.toString r in
  ret (((fieldname file ++ "-") ++ uniqueSuffix) ++ ".pdf").

(** [fileFilter] (lines 39-45): [cb(null, true)] or [cb(new Error(..), false)]. *)
Definition fileFilter (file : FilePart) : M bool :=
  if String.eqb (mimetype file) "application/pdf" then ret true
  else throw {| message := "只支持PDF文件" |}.

(** [limits.fileSize] (line 47). *)
Definition fileSize_limit : Z := 10 * 1024 * 1024.

(** [upload.single(name)]: multer refuses a file part under another field
    name, asks [fileFilter], asks the storage for a name, and writes the
    part to [uploads/<name>] unless it exceeds [limits.fileSize].  An error
    at any of these points is passed to [next] and nothing stays on disk.
    The result is [req.file].  Whether a part of exactly [limits.fileSize]
    bytes passes is the library's choice; here it does. *)
Definition upload_single (name : string) (req : Request) : M (option MulterFile) :=
  match part req with
  | None => ret None
  | Some p =>
      if negb (String.eqb (fieldname p) name)
      then throw {| message := "Unexpected field" |}
      else
        let* accepted := fileFilter p in
        if accepted then
          let* fname := storage_filename p in
          if fileSize_limit <? Z.of_nat (length (content p))
          then throw {| message := "File too large" |}
          else
            let dest := Js.path_join uploadDir fname in
            run* writeFileSync dest (content p) in
            ret (Some {| file_fieldname := fieldname p;
                         file_originalname := originalname p;
                         file_mimetype := mimetype p;
                         filename := fname;
                         path := dest |})
        else ret None
  end.

(** *** POST /api/convert (lines 61-148) *)

(** The document of lines 80-95: one section, one paragraph, one run. *)
Definition new_Document (text : string) : Document :=
  {| sections :=
       [ {| children :=
              [ {| runs := [ {| text := text; size := 24; font := "Arial" |} ] |} ] |} ] |}.

(** The history entry of lines 105-112. *)
Definition completed_item (id : Z) (originalName wordFileName : string)
    (createdAt : Z) : JsObject :=
  [ ("id", JStr (Js.toString id));
    ("originalName", JStr originalName);
    ("fileName", JStr wordFileName);
    ("status", JStr "completed");
    ("downloadUrl", JStr ("/downloads/" ++ wordFileName));
    ("createdAt", JDate createdAt) ].

(** The history entry of lines 132-138. *)
Definition failed_item (id : Z) (originalName : string) (error : JsError)
    (createdAt : Z) : JsObject :=
  [ ("id", JStr (Js.toString id));
    ("originalName", JStr originalName);
    ("status", JStr "failed");
    ("error", JStr (message error));
    ("createdAt", JDate createdAt) ].

(** The response of lines 121-126. *)
Definition success_response (wordFileName : string) : Response :=
  res_json 200
    (JObj [ ("success", JBool true);
            ("message", JStr "转换成功");
            ("downloadUrl", JStr ("/downloads/" ++ wordFileName));
            ("fileName", JStr wordFileName) ]).

(** The response of lines 142-146. *)
Definition failure_response (error : JsError) : Response :=
  res_json 500
    (JObj [ ("success", JBool false);
            ("error", JStr "转换失败");
            ("message", JStr (message error)) ]).

(** The response of line 64. *)
Definition no_file_response : Response :=
  res_json 400 (JObj [ ("error", JStr "没有上传文件") ]).

(** [fileName] (line 68) and the two names derived from it (lines 99-100). *)
Definition fileName (file : MulterFile) : string :=
  Js.replace ".pdf" EmptyString (filename file).

Definition wordFileName (file : MulterFile) : string :=
  fileName file ++ ".docx".

Definition wordPath (file : MulterFile) : string :=
  Js.path_join downloadDir (wordFileName file).

(** The body of the [try] block once [req.file] is known to be there
    (lines 67-126). *)
Definition convert_try (file : MulterFile) : M Response :=
  let pdfPath := path file in
  let* pdfBuffer := readFileSync pdfPath in
  let* text := await (pdfParse o pdfBuffer) in
  let doc := new_Document text in
  let* buffer := await (Packer_toBuffer o doc) in
  run* writeFileSync (wordPath file) buffer in
  let* id := now in
  let* createdAt := now in
  let historyItem :=
    completed_item id (file_originalname file) (wordFileName file) createdAt in
  run* unshift historyItem in
  run* unlinkSync pdfPath in
  ret (success_response (wordFileName file)).

(** [req.file?.originalname || 'unknown'] (line 134). *)
Definition originalname_or_unknown (file : option MulterFile) : string :=
  match file with
  | Some f => Js.or_else (file_originalname f) "unknown"
  | None => "unknown"
  end.

(** The [catch] block (lines 128-147). *)
Definition convert_catch (file : option MulterFile) (error : JsError) : M Response :=
  let* id := now in
  let* createdAt := now in
  let historyItem :=
    failed_item id (originalname_or_unknown file) error createdAt in
  run* unshift historyItem in
  ret (failure_response error).

(** The route handler (lines 61-148). *)
Definition convert_handler (file : option MulterFile) : M Response :=
  try_catch
    (match file with
     | None => ret no_file_response
     | Some f => convert_try f
     end)
    (convert_catch file).

(** The error-handling middleware (lines 173-179). *)
Definition error_middleware (error : JsError) : Response :=
  res_json 500
    (JObj [ ("error", JStr "服务器内部错误");
            ("message", JStr (message error)) ]).

(** The whole route: [upload.single('pdf')], then the handler; an error of
    the upload stage goes to the error-handling middleware.  A [Throw]
    here would be a rejection of the [async] handler that nothing
    handles. *)
Definition post_api_convert (req : Request) : M Response :=
  fun w =>
    match upload_single "pdf" req w with
    | (Return file, w') => convert_handler file w'
    | (Throw e, w') => (Return (error_middleware e), w')
    end.

(** *** The other routes *)

(** [GET /api/history] (lines 151-153): [conversionHistory.slice(0, 20)]. *)
Definition get_api_history : M Response :=
  fun w =>
    (Return (res_json 200 (JArr (map JObj (take 20 (conversionHistory w))))), w).

(** [res.download(p)]: the file at [p] is sent. *)
Definition res_download (p : string) : M Response :=
  fun w =>
    (Return {| status := 200; body := FileBody p (default [] (files w !! p)) |}, w).

(** [GET /downloads/:filename] (lines 156-165), for a simple file name:
    [downloads/<name>] is then a generated file or nothing.  Other names
    ([.], [..], names with a separator) reach directories and files this
    disk does not hold. *)
Definition get_download (name : string) : M Response :=
  let filePath := Js.path_join downloadDir name in
  let* found := existsSync filePath in
  if found then res_download filePath
  else ret (res_json 404 (JObj [ ("error", JStr "文件不存在") ])).

(** [GET /api/health] (lines 168-170). *)
Definition get_api_health : M Response :=
  let* t := now in
  ret (res_json 200
         (JObj [ ("status", JStr "ok"); ("timestamp", JStr (toISOString o t)) ])).

(** *** The server *)

Inductive ApiCall : Type :=
  | PostConvert (req : Request)
  | GetHistory
  | GetDownload (name : string)
  | GetHealth.

Definition serve (c : ApiCall) : M Response :=
  match c with
  | PostConvert req => post_api_convert req
  | GetHistory => get_api_history
  | GetDownload name => get_download name
  | GetHealth => get_api_health
  end.

(** The state after serving the calls one after the other. *)
Fixpoint serve_all (cs : list ApiCall) (w : World) : World :=
  match cs with
  | [] => w
  | c :: cs' => serve_all cs' (snd (serve c w))
  end.

End Program.

(** The ways a request that reached the route handler can end, with the
    state it leaves: no file (400); every step succeeded (200); a step up
    to the output write threw (500, the disk is as it was); removing the
    staged file threw (500 after the output was written and the
    [completed] entry recorded). *)
Inductive Handled (o : Oracle) (file : option MulterFile) (w : World)
    : Response -> World -> Prop :=
  | Handled_no_file :
      file = None ->
      Handled o file w no_file_response w
  | Handled_completed (f : MulterFile) (buffer : list Byte.byte) :
      file = Some f ->
      Handled o file w (success_response (wordFileName f))
        {| files := delete (path f) (<[wordPath f := buffer]> (files w));
           conversionHistory :=
             completed_item (Date_now o (clock_reads w)) (file_originalname f)
               (wordFileName f) (Date_now o (S (clock_reads w)))
             :: conversionHistory w;
           clock_reads := S (S (clock_reads w));
           random_reads := random_reads w |}
  | Handled_failed (f : MulterFile) (e : JsError) :
      file = Some f ->
      Handled o file w (failure_response e)
        {| files := files w;
           conversionHistory :=
             failed_item (Date_now o (clock_reads w))
               (Js.or_else (file_originalname f) "unknown") e
               (Date_now o (S (clock_reads w)))
             :: conversionHistory w;
           clock_reads := S (S (clock_reads w));
           random_reads := random_reads w |}
  | Handled_failed_cleanup (f : MulterFile) (e : JsError)
        (buffer : list Byte.byte) :
      file = Some f ->
      Handled o file w (failure_response e)
        {| files := <[wordPath f := buffer]> (files w);
           conversionHistory :=
             failed_item (Date_now o (S (S (clock_reads w))))
               (Js.or_else (file_originalname f) "unknown") e
               (Date_now o (S (S (S (clock_reads w)))))
             :: completed_item (Date_now o (clock_reads w)) (file_originalname f)
                  (wordFileName f) (Date_now o (S (clock_reads w)))
             :: conversionHistory w;
           clock_reads := S (S (S (S (clock_reads w))));
           random_reads := random_reads w |}.

(** The name the specification gives the output: the staged name "with
    the [.pdf] suffix stripped".  [strip_suffix suf s] removes [suf] from
    the end of [s] when [s] ends with it, and is [s] otherwise. *)
Fixpoint strip_suffix (suf s : string) : string :=
  if String.eqb s suf then EmptyString
  else match s with
       | EmptyString => EmptyString
       | String c s' => String c (strip_suffix suf s')
       end.

(** [dotless s]: no character of [s] is a full stop. *)
Fixpoint dotless (s : string) : bool :=
  match s with
  | EmptyString => true
  | String c s' => negb (Ascii.eqb c ".") && dotless s'
  end.

(** [lacks c s]: the character [c] does not occur in [s]. *)
Fixpoint lacks (c : ascii) (s : string) : bool :=
  match s with
  | EmptyString => true
  | String a s' => negb (Ascii.eqb a c) && lacks c s'
  end.



(** The [id] a history entry gets when [Date.now()] is the [k]-th clock
    reading. *)
Definition id_at (o : Oracle) (k : nat) : option Json :=
  Some (JStr (Js.toString (Date_now o k))).

(** The [createdAt] a history entry gets when [new Date()] is the [k]-th
    clock reading. *)
Definition stamp_at (o : Oracle) (k : nat) : option Json :=
  Some (JDate (Date_now o k)).

(** The clock readings that became ids while [POST /api/convert] served
    [req] from [w], newest first.  Line 106 is the first clock reading of
    the [try] block, taken at the reading current when the handler
    starts; line 133 is the first of the [catch] block, taken at the
    reading current when the exception arrives; the [try] block had
    reached line 106 exactly when it consumed readings before throwing. *)
Definition convert_id_reads (o : Oracle) (req : Request) (w : World) : list nat :=
  match upload_single o "pdf" req w with
  | (Return (Some f), w0) =>
      match convert_try o f w0 with
      | (Return _, _) => [clock_reads w0]
      | (Throw _, w1) =>
          if decide (clock_reads w1 = clock_reads w0)
          then [clock_reads w1]
          else [clock_reads w1; clock_reads w0]
      end
  | _ => []
  end.

Definition call_id_reads (o : Oracle) (c : ApiCall) (w : World) : list nat :=
  match c with
  | PostConvert req => convert_id_reads o req w
  | _ => []
  end.

(** The same for a sequence of calls served from [w], newest first: one
    reading for each entry the calls put into the history. *)
Fixpoint id_reads (o : Oracle) (cs : list ApiCall) (w : World) : list nat :=
  match cs with
  | [] => []
  | c :: cs' => (id_reads o cs' (snd (serve o c w)) ++ call_id_reads o c w)%list
  end.

(** [item] is the history entry of the successful conversion that
    answered request [req] with [r]: a [completed] entry with the
    client's original name and the file name of the answer. *)
Definition record_of (req : Request) (r : Response) (item : JsObject) : Prop :=
  prop "status" item = Some (JStr "completed") /\
  (exists p, part req = Some p /\
             prop "originalName" item = Some (JStr (originalname p))) /\
  (exists name, r = success_response name /\
                prop "fileName" item = Some (JStr name) /\
                prop "downloadUrl" item = Some (JStr ("/downloads/" ++ name))).

(** A well-formed history entry: the shape the data model asks of a
    ConversionRecord. *)
Definition is_completed (item : JsObject) : Prop :=
  prop "status" item = Some (JStr "completed").

Definition is_failed (item : JsObject) : Prop :=
  prop "status" item = Some (JStr "failed").

Definition record_ok (item : JsObject) : Prop :=
  (is_completed item \/ is_failed item) /\
  (has_prop "fileName" item <-> is_completed item) /\
  (has_prop "downloadUrl" item <-> is_completed item) /\
  (has_prop "error" item <-> is_failed item).

(** ** Sample environments and requests *)

Module Sample.

Definition pdf_bytes : list Byte.byte :=
  [Byte.x25; Byte.x50; Byte.x44; Byte.x46].

Definition docx_bytes : list Byte.byte := [Byte.x50; Byte.x4b].

(** A clock that shows the same millisecond at every reading, a parser
    that rejects an empty buffer, no file-system failures. *)
Definition same_ms : Oracle :=
  {| Date_now := fun _ => 1700000000000;
     random_1e9 := fun k => 123456789 + Z.of_nat k;
     pdfParse := fun buf =>
       match buf with
       | [] => Throw {| message := "Invalid PDF structure" |}
       | _ => Return "Hello World"
       end;
     Packer_toBuffer := fun _ => Return docx_bytes;
     fs_fault := fun _ _ => None;
     toISOString := fun _ => "2023-11-14T22:13:20.000Z" |}.

(** The same with a clock that advances at every reading. *)
Definition ticking : Oracle :=
  {| Date_now := fun k => 1700000000000 + Z.of_nat k;
     random_1e9 := random_1e9 same_ms;
     pdfParse := pdfParse same_ms;
     Packer_toBuffer := Packer_toBuffer same_ms;
     fs_fault := fs_fault same_ms;
     toISOString := toISOString same_ms |}.

(** A clock in milliseconds read three times per millisecond. *)
Definition millis : Oracle :=
  {| Date_now := fun k => 1700000000000 + Z.of_nat k / 3;
     random_1e9 := random_1e9 same_ms;
     pdfParse := pdfParse same_ms;
     Packer_toBuffer := Packer_toBuffer same_ms;
     fs_fault := fs_fault same_ms;
     toISOString := toISOString same_ms |}.

(** Document generation is rejected. *)
Definition packer_rejects : Oracle :=
  {| Date_now := Date_now ticking;
     random_1e9 := random_1e9 ticking;
     pdfParse := pdfParse ticking;
     Packer_toBuffer := fun _ => Throw {| message := "docx: cannot pack" |};
     fs_fault := fs_fault ticking;
     toISOString := toISOString ticking |}.

(** Removing a file is refused. *)
Definition unlink_refused : Oracle :=
  {| Date_now := Date_now ticking;
     random_1e9 := random_1e9 ticking;
     pdfParse := pdfParse ticking;
     Packer_toBuffer := Packer_toBuffer ticking;
     fs_fault := fun op _ =>
       match op with
       | OpUnlink => Some {| message := "EPERM: operation not permitted, unlink" |}
       | _ => None
       end;
     toISOString := toISOString ticking |}.

Definition upload (name mime : string) (data : list Byte.byte) : Request :=
  {| part := Some {| fieldname := "pdf"; originalname := name;
                     mimetype := mime; content := data |} |}.

Definition report : Request := upload "report.pdf" "application/pdf" pdf_bytes.
Definition invoice : Request := upload "invoice.pdf" "application/pdf" pdf_bytes.
Definition thesis : Request := upload "thesis.pdf" "application/pdf" pdf_bytes.
Definition empty_pdf : Request := upload "empty.pdf" "application/pdf" [].
Definition picture : Request := upload "cat.png" "image/png" pdf_bytes.
Definition no_file : Request := {| part := None |}.

(** One byte more than [limits.fileSize] allows. *)
Definition oversize : Request :=
  upload "scan.pdf" "application/pdf" (replicate (Z.to_nat 10485761) Byte.x00).

End Sample.

Example toString_ex : Js.toString 1700000000000 = "1700000000000".
Proof. reflexivity. Qed.
Example toString_neg : Js.toString (-42) = "-42".
Proof. reflexivity. Qed.
Example toString_0 : Js.toString 0 = "0".
Proof. reflexivity. Qed.
Example replace_ex : Js.replace ".pdf" EmptyString "pdf-17-5.pdf" = "pdf-17-5".
Proof. reflexivity. Qed.
Example replace_first : Js.replace ".pdf" EmptyString "a.pdf.pdf" = "a.pdf".
Proof. reflexivity. Qed.
Example strip_ex : strip_suffix ".pdf" "a.pdf.pdf" = "a.pdf".
Proof. reflexivity. Qed.

(** ** Strings: decimal numerals, [replace] and suffixes *)

Section Strings.

Lemma dotless_app (s t : string) :
  dotless (s ++ t) = dotless s && dotless t.
Proof.
  induction s as [|c s IH]; simpl; [reflexivity|].
  rewrite IH. now destruct (Ascii.eqb c ".").
Qed.

Lemma dotless_digits (d : uint) : dotless (NilEmpty.string_of_uint d) = true.
Proof. induction d; simpl; auto. Qed.

Lemma dotless_uint (d : uint) : dotless (NilZero.string_of_uint d) = true.
Proof. destruct d; try reflexivity; apply (dotless_digits (_ _)). Qed.

Lemma dotless_toString (n : Z) : dotless (Js.toString n) = true.
Proof.
  unfold Js.toString. destruct (Z.to_int n) as [d|d]; simpl.
  - apply dotless_uint.
  - apply dotless_uint.
Qed.

(** On a name whose only full stop is the one of its [.pdf] ending,
    replacing the first [.pdf] removes the ending. *)
Lemma replace_dotless (s : string) :
  dotless s = true -> Js.replace ".pdf" EmptyString (s ++ ".pdf") = s.
Proof.
  induction s as [|c s IH]; intros Hs; [reflexivity|].
  simpl in Hs. apply andb_prop in Hs as [Hc Hs].
  change (String c s ++ ".pdf") with (String c (s ++ ".pdf")).
  cbn [Js.replace Js.startsWith].
  rewrite Ascii.eqb_sym. destruct (Ascii.eqb c ".") eqn:E; [discriminate|].
  now rewrite IH.
Qed.

Lemma length_append (s t : string) :
  String.length (s ++ t) = (String.length s + String.length t)%nat.
Proof. induction s as [|c s IH]; simpl; [reflexivity|now rewrite IH]. Qed.

Lemma strip_suffix_app (pre suf : string) :
  strip_suffix suf (pre ++ suf) = pre.
Proof.
  induction pre as [|c pre IH].
  - destruct suf; simpl; [reflexivity|].
    now rewrite Ascii.eqb_refl, String.eqb_refl.
  - change (String c pre ++ suf) with (String c (pre ++ suf)).
    cbn [strip_suffix]. destruct (String.eqb_spec (String c (pre ++ suf)) suf) as [E|_].
    + apply (f_equal String.length) in E. simpl in E.
      rewrite length_append in E. lia.
    + now rewrite IH.
Qed.

Lemma toString_inj (a b : Z) : Js.toString a = Js.toString b -> a = b.
Proof.
  unfold Js.toString. intros E.
  assert (N : forall z, Z.to_int z <> Pos Nil /\ Z.to_int z <> Neg Nil).
  { intros [|q|q]; simpl; split; try discriminate;
      intros [= H]; now apply (DecimalPos.Unsigned.to_uint_nonnil q). }
  assert (Some (Z.to_int a) = Some (Z.to_int b)) as [= H].
  { rewrite <- (NilZero.isi (Z.to_int a)), <- (NilZero.isi (Z.to_int b));
      try apply N. now rewrite E. }
  now apply DecimalZ.to_int_inj.
Qed.

End Strings.

(** ** Running handler code symbolically *)

Ltac js_unfold :=
  unfold post_api_convert, convert_handler, try_catch, convert_try,
    convert_catch, originalname_or_unknown, upload_single, storage_filename, fileFilter,
    get_api_history, get_download, res_download, get_api_health,
    existsSync, readFileSync, writeFileSync, unlinkSync, unshift, now, random,
    await, bind, ret, throw, set_files, set_history in *.

Ltac js_run := js_unfold; repeat (case_match; simplify_eq/=); simplify_eq/=.

Section Upload.

Context (o : Oracle).

(** What [upload.single('pdf')] leaves behind when it hands a file to the
    handler: the part was a PDF under field [pdf], it now sits in the
    staging area under a name whose only full stop is the one of [.pdf],
    and nothing else changed but the two counters. *)
Lemma upload_single_staged (req : Request) (w w0 : World) (file : MulterFile) :
  upload_single o "pdf" req w = (Return (Some file), w0) ->
  exists (p : FilePart) (base : string),
    part req = Some p /\ fieldname p = "pdf" /\
    mimetype p = "application/pdf" /\
    dotless base = true /\
    filename file = base ++ ".pdf" /\
    path file = Js.path_join uploadDir (filename file) /\
    file_originalname file = originalname p /\
    fs_fault o OpWrite (path file) = None /\
    files w0 = <[path file := content p]> (files w) /\
    conversionHistory w0 = conversionHistory w /\
    clock_reads w0 = S (clock_reads w).
Proof.
  intros H. destruct req as [[p|]]; [|js_run].
  js_unfold. simpl in H.
  destruct (negb (fieldname p =? "pdf")%string) eqn:Ef; [js_run|].
  destruct (mimetype p =? "application/pdf")%string eqn:Em; [|js_run].
  apply negb_false_iff, String.eqb_eq in Ef. apply String.eqb_eq in Em.
  js_run.
  match goal with
  | |- context [Date_now o (clock_reads ?w')] =>
      exists p, (("pdf" ++ "-") ++ (Js.toString (Date_now o (clock_reads w')) ++ "-")
                   ++ Js.toString (random_1e9 o (random_reads w')))
  end.
  rewrite Ef. repeat split; try done.
  rewrite !dotless_app, !dotless_toString. reflexivity.
Qed.

(** Without a file part the upload stage does nothing, and it never
    reports "no file" in any other case. *)
Lemma upload_single_none (req : Request) (w w0 : World) :
  upload_single o "pdf" req w = (Return None, w0) ->
  part req = None /\ w0 = w.
Proof. intros H. destruct req as [[p|]]; js_run. done. Qed.

(** An error of the upload stage leaves the disk and the history alone. *)
Lemma upload_single_throws (req : Request) (w w0 : World) (e : JsError) :
  upload_single o "pdf" req w = (Throw e, w0) ->
  files w0 = files w /\ conversionHistory w0 = conversionHistory w /\
  (clock_reads w <= clock_reads w0)%nat.
Proof. intros H. destruct req as [[p|]]; js_run; auto with lia. Qed.

End Upload.

(** ** The route handler *)

Section Handler.

Context (o : Oracle).

(** The handler always answers, in one of the four ways of [Handled]:
    no exception leaves its [try]/[catch]. *)
Lemma convert_handler_handled (file : option MulterFile) (w : World) :
  exists (r : Response) (w' : World),
    convert_handler o file w = (Return r, w') /\ Handled o file w r w'.
Proof.
  destruct file as [f|].
  - js_unfold.
    destruct (fs_fault o OpRead (path f)) eqn:Er; simpl.
    { eexists _, _; split; [reflexivity|]. eapply Handled_failed; eauto. }
    destruct (files w !! path f) as [data|] eqn:Ef; simpl.
    2:{ eexists _, _; split; [reflexivity|]. eapply Handled_failed; eauto. }
    destruct (pdfParse o data) as [text|e1] eqn:Ep; simpl.
    2:{ eexists _, _; split; [reflexivity|]. eapply Handled_failed; eauto. }
    destruct (Packer_toBuffer o (new_Document text)) as [buffer|e2] eqn:Eb; simpl.
    2:{ eexists _, _; split; [reflexivity|]. eapply Handled_failed; eauto. }
    destruct (fs_fault o OpWrite (wordPath f)) eqn:Ew; simpl.
    { eexists _, _; split; [reflexivity|]. eapply Handled_failed; eauto. }
    destruct (fs_fault o OpUnlink (path f)) eqn:Eu; simpl.
    { eexists _, _; split; [reflexivity|]. eapply Handled_failed_cleanup; eauto. }
    destruct (<[wordPath f:=buffer]> (files w) !! path f) eqn:Ex; simpl.
    + eexists _, _; split; [reflexivity|]. eapply Handled_completed; eauto.
    + eexists _, _; split; [reflexivity|]. eapply Handled_failed_cleanup; eauto.
  - eexists _, _; split; [reflexivity|]. by constructor.
Qed.

(** The whole route: either the upload stage failed and the error
    middleware answered, or the handler ran on what the upload stage
    produced. *)
Lemma post_api_convert_spec (req : Request) (w : World) :
  exists (r : Response) (w' : World),
    post_api_convert o req w = (Return r, w') /\
    ((exists e, upload_single o "pdf" req w = (Throw e, w') /\
                r = error_middleware e) \/
     (exists file w0, upload_single o "pdf" req w = (Return file, w0) /\
                      Handled o file w0 r w')).
Proof.
  unfold post_api_convert.
  destruct (upload_single o "pdf" req w) as [[file|e] w0] eqn:Eu.
  - destruct (convert_handler_handled file w0) as (r & w' & E & H).
    exists r, w'. split; [done|]. right. by exists file, w0.
  - exists (error_middleware e), w0. split; [done|]. left. by exists e.
Qed.

(** A path of the staging area is never a path of the output area. *)
Lemma uploads_not_downloads (a b : string) :
  Js.path_join uploadDir a <> Js.path_join downloadDir b.
Proof. discriminate. Qed.

End Handler.

(** ** POST /api/convert: the answers *)

(** C8: a [POST /api/convert] request without a file part is answered
    with status 400 and a JSON object that has an [error] field, and the
    process state is untouched: no history entry, no file created. *)
Theorem convert_without_file (o : Oracle) (req : Request) (w : World) :
  part req = None ->
  exists (r : Response) (obj : JsObject),
    post_api_convert o req w = (Return r, w) /\
    status r = 400 /\
    body r = JsonBody (JObj obj) /\ has_prop "error" obj.
Proof.
  intros H. exists no_file_response. eexists. split; [|split; [|split]].
  - destruct req as [[p|]]; [discriminate|]. reflexivity.
  - reflexivity.
  - reflexivity.
  - by eexists.
Qed.

Lemma convert_without_file_witness :
  exists (r : Response) (obj : JsObject),
    post_api_convert Sample.ticking Sample.no_file init_world
      = (Return r, init_world) /\
    status r = 400 /\
    body r = JsonBody (JObj obj) /\ has_prop "error" obj.
Proof.
  apply (convert_without_file Sample.ticking Sample.no_file init_world).
  reflexivity.
Defined.

(** C3, as the specification states it, fails: an upload of type
    [image/png] is answered with status 500, not with a 400-class
    status. *)
Lemma non_pdf_upload_is_answered_500 :
  mimetype (mkPart "pdf" "cat.png" "image/png" Sample.pdf_bytes)
    <> "application/pdf" /\
  exists r : Response,
    post_api_convert Sample.ticking Sample.picture init_world
      = (Return r, init_world) /\
    status r = 500 /\ ~ (400 <= status r <= 499).
Proof.
  split; [discriminate|].
  eexists. split; [reflexivity|]. split; [reflexivity|]. simpl. lia.
Qed.

(** C3, amended: an upload whose MIME type is not [application/pdf] is
    refused by the upload stage; the error-handling middleware answers
    with status 500 and the filter's message, and the process state is
    untouched: nothing is staged, nothing appears in the output area, no
    history entry is made. *)
Theorem convert_rejects_non_pdf (o : Oracle) (req : Request) (p : FilePart)
    (w : World) :
  part req = Some p ->
  fieldname p = "pdf" ->
  mimetype p <> "application/pdf" ->
  post_api_convert o req w
    = (Return (res_json 500 (JObj [ ("error", JStr "服务器内部错误");
                                    ("message", JStr "只支持PDF文件") ])), w).
Proof.
  intros Hp Hf Hm. destruct req as [[q|]]; simplify_eq/=.
  unfold post_api_convert, upload_single; simpl. rewrite Hf; simpl.
  unfold bind, fileFilter.
  destruct (String.eqb_spec (mimetype p) "application/pdf"); [done|].
  reflexivity.
Qed.

Lemma convert_rejects_non_pdf_witness :
  post_api_convert Sample.ticking Sample.picture init_world
    = (Return (res_json 500 (JObj [ ("error", JStr "服务器内部错误");
                                    ("message", JStr "只支持PDF文件") ])),
       init_world).
Proof.
  apply (convert_rejects_non_pdf Sample.ticking Sample.picture
           (mkPart "pdf" "cat.png" "image/png" Sample.pdf_bytes));
    [reflexivity | reflexivity | discriminate].
Defined.

(** On a staged file, the code's [replace('.pdf', '')] is the
    specification's "strip the [.pdf] suffix". *)
Lemma fileName_strips_suffix (o : Oracle) (req : Request) (w w0 : World)
    (file : MulterFile) :
  upload_single o "pdf" req w = (Return (Some file), w0) ->
  fileName file = strip_suffix ".pdf" (filename file).
Proof.
  intros H. apply upload_single_staged in H as (p & base & _ & _ & _ & Hb & Hn & _).
  unfold fileName. rewrite Hn, strip_suffix_app. by apply replace_dotless.
Qed.

(** C1, as the specification states it, fails: the upload below is
    staged, parsed and generated without error and the output file is
    written, yet the answer is 500, because removing the staged file is
    refused. *)
Lemma generated_upload_is_answered_500 :
  let o := Sample.unlink_refused in
  let file := mkFile "pdf" "report.pdf" "application/pdf"
                "pdf-1700000000000-123456789.pdf"
                "uploads/pdf-1700000000000-123456789.pdf" in
  let e := {| message := "EPERM: operation not permitted, unlink" |} in
  fst (upload_single o "pdf" Sample.report init_world) = Return (Some file) /\
  pdfParse o Sample.pdf_bytes = Return "Hello World" /\
  Packer_toBuffer o (new_Document "Hello World") = Return Sample.docx_bytes /\
  fst (post_api_convert o Sample.report init_world)
    = Return (failure_response e) /\
  files (snd (post_api_convert o Sample.report init_world))
    !! "downloads/pdf-1700000000000-123456789.docx" = Some Sample.docx_bytes /\
  status (failure_response e) = 500.
Proof. repeat split; vm_compute; reflexivity. Qed.

(** C1, amended: an upload of field [pdf] that is staged, read, parsed
    and generated without error, whose output is written and whose staged
    file is removed without error, is answered 200 with [success: true],
    a message, [fileName] equal to the staged name with its [.pdf] suffix
    stripped and [.docx] appended, and [downloadUrl] equal to
    [/downloads/<fileName>]; the generated document is in the output area
    under that name. *)
Theorem convert_succeeds (o : Oracle) (req : Request) (p : FilePart)
    (w w0 : World) (file : MulterFile) (text : string)
    (buffer : list Byte.byte) :
  part req = Some p ->
  upload_single o "pdf" req w = (Return (Some file), w0) ->
  fs_fault o OpRead (path file) = None ->
  pdfParse o (content p) = Return text ->
  Packer_toBuffer o (new_Document text) = Return buffer ->
  fs_fault o OpWrite (wordPath file) = None ->
  fs_fault o OpUnlink (path file) = None ->
  exists (name : string) (w' : World),
    name = strip_suffix ".pdf" (filename file) ++ ".docx" /\
    post_api_convert o req w
      = (Return (res_json 200
                   (JObj [ ("success", JBool true);
                           ("message", JStr "转换成功");
                           ("downloadUrl", JStr ("/downloads/" ++ name));
                           ("fileName", JStr name) ])), w') /\
    files w' !! Js.path_join downloadDir name = Some buffer.
Proof.
  intros Hp Hu Hr Ht Hb Hw Hd.
  pose proof (fileName_strips_suffix _ _ _ _ _ Hu) as Hn.
  pose proof Hu as Hs.
  apply upload_single_staged in Hs
    as (q & base & Hq & _ & _ & _ & _ & Hpath & _ & _ & Hfiles & _).
  assert (q = p) as -> by congruence.
  assert (Hlook : files w0 !! path file = Some (content p))
    by (rewrite Hfiles; apply lookup_insert_eq).
  exists (wordFileName file). eexists.
  split; [unfold wordFileName; by rewrite Hn|].
  unfold post_api_convert. rewrite Hu.
  unfold convert_handler, try_catch, convert_try, bind, readFileSync, await.
  rewrite Hr, Hlook, Ht, Hb. unfold writeFileSync. rewrite Hw. simpl.
  unfold unlinkSync. rewrite Hd. simpl.
  rewrite lookup_insert_ne, Hlook.
  2:{ rewrite Hpath. unfold wordPath. symmetry. apply uploads_not_downloads. }
  split; [reflexivity|]. simpl.
  rewrite lookup_delete_ne.
  2:{ rewrite Hpath. unfold wordPath. apply uploads_not_downloads. }
  apply lookup_insert_eq.
Qed.

Lemma convert_succeeds_witness :
  exists (name : string) (w' : World),
    name = strip_suffix ".pdf" "pdf-1700000000000-123456789.pdf" ++ ".docx" /\
    post_api_convert Sample.ticking Sample.report init_world
      = (Return (res_json 200
                   (JObj [ ("success", JBool true);
                           ("message", JStr "转换成功");
                           ("downloadUrl", JStr ("/downloads/" ++ name));
                           ("fileName", JStr name) ])), w') /\
    files w' !! Js.path_join downloadDir name = Some Sample.docx_bytes.
Proof.
  apply (convert_succeeds Sample.ticking Sample.report
           (mkPart "pdf" "report.pdf" "application/pdf" Sample.pdf_bytes)
           init_world
           (snd (upload_single Sample.ticking "pdf" Sample.report init_world))
           (mkFile "pdf" "report.pdf" "application/pdf"
              "pdf-1700000000000-123456789.pdf"
              "uploads/pdf-1700000000000-123456789.pdf")
           "Hello World" Sample.docx_bytes); reflexivity.
Defined.

(** ** POST /api/convert: failures *)

(** C2, as the specification states it, fails: text extraction succeeds,
    document generation is rejected, and the staged file is still in the
    staging area when the request has been answered. *)
Lemma staged_file_survives_failed_generation :
  let o := Sample.packer_rejects in
  let file := mkFile "pdf" "report.pdf" "application/pdf"
                "pdf-1700000000000-123456789.pdf"
                "uploads/pdf-1700000000000-123456789.pdf" in
  fst (upload_single o "pdf" Sample.report init_world) = Return (Some file) /\
  pdfParse o Sample.pdf_bytes = Return "Hello World" /\
  Packer_toBuffer o (new_Document "Hello World")
    = Throw {| message := "docx: cannot pack" |} /\
  files (snd (post_api_convert o Sample.report init_world)) !! path file
    = Some Sample.pdf_bytes.
Proof. repeat split; vm_compute; reflexivity. Qed.

(** C2, amended: the staged input file is removed exactly when the
    conversion is answered 200, that is after reading, extraction,
    generation, the output write and the history entry have all
    succeeded; when the request is answered 500 because a step threw, the
    staged file is still in the staging area with its contents. *)
Theorem staged_file_removed_on_success_only (o : Oracle) (req : Request)
    (p : FilePart) (w w0 w' : World) (file : MulterFile) (r : Response) :
  part req = Some p ->
  upload_single o "pdf" req w = (Return (Some file), w0) ->
  post_api_convert o req w = (Return r, w') ->
  (status r = 200 /\ files w' !! path file = None) \/
  (status r = 500 /\ files w' !! path file = Some (content p)).
Proof.
  intros Hp Hu Hr.
  pose proof Hu as Hs.
  apply upload_single_staged in Hs
    as (q & base & Hq & _ & _ & _ & _ & Hpath & _ & _ & Hfiles & _).
  assert (q = p) as -> by congruence.
  assert (Hlook : files w0 !! path file = Some (content p))
    by (rewrite Hfiles; apply lookup_insert_eq).
  assert (Hne : wordPath file <> path file).
  { rewrite Hpath. unfold wordPath. symmetry. apply uploads_not_downloads. }
  destruct (post_api_convert_spec o req w) as (r1 & w1 & E & H).
  rewrite Hr in E. injection E as <- <-.
  destruct H as [(e & Hthrow & _)|(file' & w0' & Hu' & H)]; [congruence|].
  rewrite Hu in Hu'. injection Hu' as <- <-.
  inversion H as [Hf | f buffer Hf | f e Hf | f e buffer Hf];
    simplify_eq/=.
  - left. split; [done|]. apply lookup_delete_eq.
  - right. by split.
  - right. split; [done|]. by rewrite lookup_insert_ne.
Qed.

Lemma staged_file_removed_on_success_only_witness :
  let r := failure_response {| message := "docx: cannot pack" |} in
  let w' := snd (post_api_convert Sample.packer_rejects Sample.report init_world) in
  (status r = 200 /\
   files w' !! "uploads/pdf-1700000000000-123456789.pdf" = None) \/
  (status r = 500 /\
   files w' !! "uploads/pdf-1700000000000-123456789.pdf" = Some Sample.pdf_bytes).
Proof.
  apply (staged_file_removed_on_success_only Sample.packer_rejects Sample.report
           (mkPart "pdf" "report.pdf" "application/pdf" Sample.pdf_bytes)
           init_world
           (snd (upload_single Sample.packer_rejects "pdf" Sample.report init_world))
           (snd (post_api_convert Sample.packer_rejects Sample.report init_world))
           (mkFile "pdf" "report.pdf" "application/pdf"
              "pdf-1700000000000-123456789.pdf"
              "uploads/pdf-1700000000000-123456789.pdf")
           (failure_response {| message := "docx: cannot pack" |}));
    reflexivity.
Defined.

(** C4: when a step after staging throws, the handler's [catch] takes
    the exception: the route still returns a response, which is 500 with
    [success: false] and the thrown error's message, and a [failed] entry
    is put at the front of the history, carrying the thrown message and
    the client's original name, or ["unknown"] when that name is empty. *)
Theorem conversion_failure_is_caught (o : Oracle) (req : Request)
    (p : FilePart) (w w0 w1 : World) (file : MulterFile) (e : JsError) :
  part req = Some p ->
  upload_single o "pdf" req w = (Return (Some file), w0) ->
  convert_try o file w0 = (Throw e, w1) ->
  exists (item : JsObject) (w2 : World),
    post_api_convert o req w
      = (Return (res_json 500 (JObj [ ("success", JBool false);
                                      ("error", JStr "转换失败");
                                      ("message", JStr (message e)) ])), w2) /\
    conversionHistory w2 = item :: conversionHistory w1 /\
    files w2 = files w1 /\
    prop "status" item = Some (JStr "failed") /\
    prop "error" item = Some (JStr (message e)) /\
    prop "originalName" item
      = Some (JStr (if decide (originalname p = EmptyString)
                    then "unknown" else originalname p)).
Proof.
  intros Hp Hu Ht.
  pose proof Hu as Hs.
  apply upload_single_staged in Hs
    as (q & base & Hq & _ & _ & _ & _ & _ & Hname & _).
  assert (q = p) as -> by congruence.
  unfold post_api_convert. rewrite Hu.
  unfold convert_handler, try_catch. rewrite Ht.
  unfold convert_catch, bind, now, unshift, ret, set_history; simpl.
  eexists _, _. split; [reflexivity|]. simpl.
  repeat split. rewrite Hname.
  destruct (originalname p); reflexivity.
Qed.

Lemma conversion_failure_is_caught_witness :
  exists (item : JsObject) (w2 : World),
    post_api_convert Sample.ticking Sample.empty_pdf init_world
      = (Return (res_json 500 (JObj [ ("success", JBool false);
                                      ("error", JStr "转换失败");
                                      ("message", JStr "Invalid PDF structure") ])),
         w2) /\
    conversionHistory w2 = [item] /\
    files w2 = files (snd (upload_single Sample.ticking "pdf" Sample.empty_pdf init_world)) /\
    prop "status" item = Some (JStr "failed") /\
    prop "error" item = Some (JStr "Invalid PDF structure") /\
    prop "originalName" item = Some (JStr "empty.pdf").
Proof.
  apply (conversion_failure_is_caught Sample.ticking Sample.empty_pdf
           (mkPart "pdf" "empty.pdf" "application/pdf" [])
           init_world
           (snd (upload_single Sample.ticking "pdf" Sample.empty_pdf init_world))
           (snd (upload_single Sample.ticking "pdf" Sample.empty_pdf init_world))
           (mkFile "pdf" "empty.pdf" "application/pdf"
              "pdf-1700000000000-123456789.pdf"
              "uploads/pdf-1700000000000-123456789.pdf")
           {| message := "Invalid PDF structure" |}); reflexivity.
Defined.

(** C10: the [completed] entry is recorded before the staged file is
    removed.  So when everything up to the output write succeeds and
    removing the staged file throws, the history gains a [completed] entry
    and, in front of it, a [failed] entry for the same attempt; the client
    is answered 500 although the output file is in the output area. *)
Theorem cleanup_failure_records_both (o : Oracle) (req : Request)
    (p : FilePart) (w w0 : World) (file : MulterFile) (text : string)
    (buffer : list Byte.byte) (e : JsError) :
  part req = Some p ->
  upload_single o "pdf" req w = (Return (Some file), w0) ->
  fs_fault o OpRead (path file) = None ->
  pdfParse o (content p) = Return text ->
  Packer_toBuffer o (new_Document text) = Return buffer ->
  fs_fault o OpWrite (wordPath file) = None ->
  fs_fault o OpUnlink (path file) = Some e ->
  exists (completed failed : JsObject) (r : Response) (w' : World),
    post_api_convert o req w = (Return r, w') /\
    status r = 500 /\
    r = failure_response e /\
    conversionHistory w' = failed :: completed :: conversionHistory w /\
    is_completed completed /\
    prop "fileName" completed = Some (JStr (wordFileName file)) /\
    prop "originalName" completed = Some (JStr (originalname p)) /\
    is_failed failed /\
    prop "error" failed = Some (JStr (message e)) /\
    files w' !! wordPath file = Some buffer.
Proof.
  intros Hp Hu Hr Ht Hb Hw Hd.
  pose proof Hu as Hs.
  apply upload_single_staged in Hs
    as (q & base & Hq & _ & _ & _ & _ & Hpath & Hname & _ & Hfiles & Hhist & _).
  assert (q = p) as -> by congruence.
  assert (Hlook : files w0 !! path file = Some (content p))
    by (rewrite Hfiles; apply lookup_insert_eq).
  unfold post_api_convert. rewrite Hu.
  unfold convert_handler, try_catch, convert_try, bind, readFileSync, await.
  rewrite Hr, Hlook, Ht, Hb. unfold writeFileSync. rewrite Hw. simpl.
  unfold unlinkSync. rewrite Hd. simpl.
  unfold convert_catch, bind, now, unshift, ret, set_history; simpl.
  do 4 eexists. split; [reflexivity|]. simpl. rewrite Hhist, Hname.
  repeat split. apply lookup_insert_eq.
Qed.

Lemma cleanup_failure_records_both_witness :
  exists (completed failed : JsObject) (r : Response) (w' : World),
    post_api_convert Sample.unlink_refused Sample.report init_world
      = (Return r, w') /\
    status r = 500 /\
    r = failure_response {| message := "EPERM: operation not permitted, unlink" |} /\
    conversionHistory w' = [failed; completed] /\
    is_completed completed /\
    prop "fileName" completed = Some (JStr "pdf-1700000000000-123456789.docx") /\
    prop "originalName" completed = Some (JStr "report.pdf") /\
    is_failed failed /\
    prop "error" failed = Some (JStr "EPERM: operation not permitted, unlink") /\
    files w' !! "downloads/pdf-1700000000000-123456789.docx"
      = Some Sample.docx_bytes.
Proof.
  apply (cleanup_failure_records_both Sample.unlink_refused Sample.report
           (mkPart "pdf" "report.pdf" "application/pdf" Sample.pdf_bytes)
           init_world
           (snd (upload_single Sample.unlink_refused "pdf" Sample.report init_world))
           (mkFile "pdf" "report.pdf" "application/pdf"
              "pdf-1700000000000-123456789.pdf"
              "uploads/pdf-1700000000000-123456789.pdf")
           "Hello World" Sample.docx_bytes
           {| message := "EPERM: operation not permitted, unlink" |});
    reflexivity.
Defined.

(** ** The history *)

Section History.

Context (o : Oracle).

(** A request answered 200 put exactly one entry, its own, at the front
    of the history. *)
Lemma post_api_convert_200 (req : Request) (w w' : World) (r : Response) :
  post_api_convert o req w = (Return r, w') ->
  status r = 200 ->
  exists item : JsObject,
    conversionHistory w' = item :: conversionHistory w /\ record_of req r item.
Proof.
  intros Hr Hs.
  destruct (post_api_convert_spec o req w) as (r1 & w1 & E & H).
  rewrite Hr in E. injection E as <- <-.
  destruct H as [(e & _ & ->)|(file & w0 & Hu & H)]; [discriminate|].
  inversion H as [Hf | f buffer Hf | f e Hf | f e buffer Hf];
    simplify_eq/=.
  apply upload_single_staged in Hu
    as (p & base & Hp & _ & _ & _ & _ & _ & Hname & _ & _ & Hhist & _).
  eexists. split; [by rewrite Hhist|].
  split; [reflexivity|]. split.
  - exists p. split; [done|]. simpl. by rewrite Hname.
  - by exists (wordFileName f).
Qed.

End History.

(** C5: entries go to the front of the history.  After three
    conversions A, B, C answered 200 one after the other,
    [GET /api/history] lists the entry of C, then that of B, then that of
    A, and after them what the history held before. *)
Theorem history_most_recent_first (o : Oracle) (a b c : Request)
    (w0 w1 w2 w3 : World) (ra rb rc : Response) :
  post_api_convert o a w0 = (Return ra, w1) -> status ra = 200 ->
  post_api_convert o b w1 = (Return rb, w2) -> status rb = 200 ->
  post_api_convert o c w2 = (Return rc, w3) -> status rc = 200 ->
  exists ia ib ic : JsObject,
    record_of a ra ia /\ record_of b rb ib /\ record_of c rc ic /\
    conversionHistory w3 = ic :: ib :: ia :: conversionHistory w0 /\
    get_api_history w3
      = (Return (res_json 200
                   (JArr (JObj ic :: JObj ib :: JObj ia
                          :: map JObj (take 17 (conversionHistory w0))))), w3).
Proof.
  intros Ha Sa Hb Sb Hc Sc.
  destruct (post_api_convert_200 o _ _ _ _ Ha Sa) as (ia & Ea & Ra).
  destruct (post_api_convert_200 o _ _ _ _ Hb Sb) as (ib & Eb & Rb).
  destruct (post_api_convert_200 o _ _ _ _ Hc Sc) as (ic & Ec & Rc).
  exists ia, ib, ic. repeat (split; [done|]).
  assert (E : conversionHistory w3 = ic :: ib :: ia :: conversionHistory w0)
    by congruence.
  split; [done|]. unfold get_api_history. by rewrite E.
Qed.

Lemma history_most_recent_first_witness :
  let o := Sample.ticking in
  let w1 := snd (post_api_convert o Sample.report init_world) in
  let w2 := snd (post_api_convert o Sample.invoice w1) in
  let w3 := snd (post_api_convert o Sample.thesis w2) in
  exists ia ib ic : JsObject,
    record_of Sample.report
      (success_response "pdf-1700000000000-123456789.docx") ia /\
    record_of Sample.invoice
      (success_response "pdf-1700000000003-123456790.docx") ib /\
    record_of Sample.thesis
      (success_response "pdf-1700000000006-123456791.docx") ic /\
    conversionHistory w3 = [ic; ib; ia] /\
    get_api_history w3
      = (Return (res_json 200 (JArr [JObj ic; JObj ib; JObj ia])), w3).
Proof.
  intros o w1 w2 w3.
  apply (history_most_recent_first o Sample.report Sample.invoice Sample.thesis
           init_world w1 w2 w3); vm_compute; reflexivity.
Defined.

(** ** GET /api/history *)

Lemma unshift_all_history (items : list JsObject) (w0 : World) :
  conversionHistory (foldl (fun w item => snd (unshift item w)) w0 items)
    = (rev items ++ conversionHistory w0)%list.
Proof.
  revert w0. induction items as [|item items IH]; intros w0; simpl; [done|].
  rewrite IH. simpl. by rewrite <- app_assoc.
Qed.

(** C6: in every state [GET /api/history] answers with the first
    [min 20 length] entries of the history and leaves the state as it is;
    after 25 entries have been recorded (each with [unshift]) the answer
    holds exactly the 20 recorded last, newest first. *)
Theorem history_returns_20_most_recent (items : list JsObject) (w0 : World) :
  let w := foldl (fun w item => snd (unshift item w)) w0 items in
  get_api_history w
    = (Return (res_json 200 (JArr (map JObj (take 20 (conversionHistory w))))), w) /\
  length (take 20 (conversionHistory w))
    = Nat.min 20 (length (conversionHistory w)) /\
  (length items = 25%nat ->
   take 20 (conversionHistory w) = rev (drop 5 items) /\
   length (take 20 (conversionHistory w)) = 20%nat).
Proof.
  intros w. split; [reflexivity|]. split; [apply length_take|].
  intros Hlen. subst w. rewrite unshift_all_history.
  assert (E : rev items = (rev (drop 5 items) ++ rev (take 5 items))%list).
  { rewrite <- rev_app_distr. by rewrite take_drop. }
  assert (L : length (rev (drop 5 items)) = 20%nat).
  { rewrite length_rev, length_drop. lia. }
  rewrite E, <- app_assoc, take_app_length' by done.
  done.
Qed.

Lemma history_returns_20_most_recent_witness :
  let items := map (fun k => [("id", JStr (Js.toString k))])
                 [1;2;3;4;5;6;7;8;9;10;11;12;13;14;15;16;17;18;19;20;21;22;23;24;25] in
  let w := foldl (fun w item => snd (unshift item w)) init_world items in
  take 20 (conversionHistory w) = rev (drop 5 items) /\
  length (take 20 (conversionHistory w)) = 20%nat.
Proof.
  intros items w.
  apply (proj2 (proj2 (history_returns_20_most_recent items init_world))).
  reflexivity.
Defined.

(** ** Invariants of the history *)

Section Invariants.

Context (o : Oracle).

Lemma completed_item_ok (id : Z) (name wordName : string) (at_ : Z) :
  record_ok (completed_item id name wordName at_).
Proof.
  unfold record_ok, is_completed, is_failed, has_prop; simpl.
  repeat split; intros; try done; try (by eexists); try (by left);
    by match goal with H : is_Some None |- _ => destruct H end.
Qed.

Lemma failed_item_ok (id : Z) (name : string) (e : JsError) (at_ : Z) :
  record_ok (failed_item id name e at_).
Proof.
  unfold record_ok, is_completed, is_failed, has_prop; simpl.
  repeat split; intros; try done; try (by eexists); try (by right);
    by match goal with H : is_Some None |- _ => destruct H end.
Qed.

(** What one run of the handler adds to the history: entries [new], all
    well formed, whose ids were read from the clock at the distinct
    readings [ks] taken during this run. *)
Lemma Handled_appends (file : option MulterFile) (w w' : World) (r : Response) :
  Handled o file w r w' ->
  exists (new : list JsObject) (ks : list nat),
    conversionHistory w' = (new ++ conversionHistory w)%list /\
    Forall record_ok new /\
    prop "id" <$> new = id_at o <$> ks /\
    NoDup ks /\
    Forall (fun k => clock_reads w <= k < clock_reads w')%nat ks /\
    (clock_reads w <= clock_reads w')%nat.
Proof.
  intros H.
  inversion H as [Hf | f buffer Hf | f e Hf | f e buffer Hf];
    simplify_eq/=.
  - exists [], []. split_and!; auto using NoDup_nil_2.
  - eexists [_], [clock_reads w]. split_and!; simpl; [done| |done| | |lia].
    + constructor; [apply completed_item_ok | constructor].
    + apply NoDup_singleton.
    + repeat constructor; lia.
  - eexists [_], [clock_reads w]. split_and!; simpl; [done| |done| | |lia].
    + constructor; [apply failed_item_ok | constructor].
    + apply NoDup_singleton.
    + repeat constructor; lia.
  - eexists [_; _], [S (S (clock_reads w)); clock_reads w].
    split_and!; simpl; [done| |done| | |lia].
    + constructor; [apply failed_item_ok|].
      constructor; [apply completed_item_ok | constructor].
    + apply NoDup_cons. split; [|apply NoDup_singleton].
      rewrite list_elem_of_singleton. lia.
    + repeat constructor; lia.
Qed.

(** The same for any call served. *)
Lemma serve_appends (c : ApiCall) (w : World) :
  exists (new : list JsObject) (ks : list nat),
    conversionHistory (snd (serve o c w)) = (new ++ conversionHistory w)%list /\
    Forall record_ok new /\
    prop "id" <$> new = id_at o <$> ks /\
    NoDup ks /\
    Forall (fun k => clock_reads w <= k < clock_reads (snd (serve o c w)))%nat ks /\
    (clock_reads w <= clock_reads (snd (serve o c w)))%nat.
Proof.
  destruct c as [req| |name|]; simpl.
  - destruct (post_api_convert_spec o req w) as (r & w' & E & H).
    rewrite E; simpl.
    destruct H as [(e & Hu & _)|(file & w0 & Hu & H)].
    + apply upload_single_throws in Hu as (_ & Hh & Hc).
      exists [], []. split_and!; auto using NoDup_nil_2.
    + apply Handled_appends in H as (new & ks & Hh & Hok & Hid & Hnd & Hks & Hc).
      assert (conversionHistory w0 = conversionHistory w /\
              (clock_reads w <= clock_reads w0)%nat) as [Eh Ec].
      { destruct file as [f|].
        - apply upload_single_staged in Hu
            as (p & base & _ & _ & _ & _ & _ & _ & _ & _ & _ & Eh & Ec).
          split; [done|lia].
        - apply upload_single_none in Hu as [_ ->]. done. }
      exists new, ks. rewrite Hh, Eh. split_and!; [done..| |lia].
      eapply Forall_impl; [exact Hks|]. simpl. lia.
  - exists [], []. split_and!; auto using NoDup_nil_2.
  - unfold get_download, bind, existsSync; simpl. destruct (bool_decide _);
      exists [], []; split_and!; auto using NoDup_nil_2.
  - exists [], []. split_and!; simpl; auto using NoDup_nil_2.
Qed.

(** C7 as an invariant step: serving calls keeps the history well formed. *)
Lemma serve_all_records_ok (cs : list ApiCall) (w : World) :
  Forall record_ok (conversionHistory w) ->
  Forall record_ok (conversionHistory (serve_all o cs w)).
Proof.
  revert w. induction cs as [|c cs IH]; intros w Hw; simpl; [done|].
  apply IH.
  destruct (serve_appends c w) as (new & ks & -> & Hok & _).
  by apply Forall_app.
Qed.

End Invariants.

(** C7: every entry the process ever puts into the history has status
    [completed] or [failed]; it has a [fileName] and a [downloadUrl]
    exactly when it is [completed], and an [error] exactly when it is
    [failed]. *)
Theorem history_records_well_formed (o : Oracle) (cs : list ApiCall) :
  Forall record_ok (conversionHistory (serve_all o cs init_world)).
Proof. apply serve_all_records_ok. constructor. Qed.

(** ** The clock readings behind the ids *)

Section IdReads.

Context (o : Oracle).

(** What the [try] block does to the history and the clock: it records
    one entry, whose id is the reading current at its start, and consumes
    two readings, or it throws before touching either. *)
Lemma convert_try_reads (f : MulterFile) (w0 : World) :
  match convert_try o f w0 with
  | (Return _, w1) =>
      exists item,
        conversionHistory w1 = item :: conversionHistory w0 /\
        prop "id" item = id_at o (clock_reads w0) /\
        clock_reads w1 = S (S (clock_reads w0))
  | (Throw _, w1) =>
      (conversionHistory w1 = conversionHistory w0 /\
       clock_reads w1 = clock_reads w0) \/
      (exists item,
         conversionHistory w1 = item :: conversionHistory w0 /\
         prop "id" item = id_at o (clock_reads w0) /\
         clock_reads w1 = S (S (clock_reads w0)))
  end.
Proof.
  js_unfold.
  destruct (fs_fault o OpRead (path f)); simpl; [by left|].
  destruct (files w0 !! path f) as [data|]; simpl; [|by left].
  destruct (pdfParse o data) as [text|e1]; simpl; [|by left].
  destruct (Packer_toBuffer o (new_Document text)) as [buffer|e2]; simpl;
    [|by left].
  destruct (fs_fault o OpWrite (wordPath f)); simpl; [by left|].
  destruct (fs_fault o OpUnlink (path f)); simpl; [right; by eexists|].
  destruct (<[wordPath f:=buffer]> (files w0) !! path f); simpl;
    [by eexists | right; by eexists].
Qed.

(** One call: the entries it adds have the ids read at [call_id_reads],
    which are distinct readings taken during the call. *)
Lemma call_reads (c : ApiCall) (w : World) :
  exists new : list JsObject,
    conversionHistory (snd (serve o c w)) = (new ++ conversionHistory w)%list /\
    prop "id" <$> new = id_at o <$> call_id_reads o c w /\
    Forall (fun k => clock_reads w <= k < clock_reads (snd (serve o c w)))%nat
      (call_id_reads o c w) /\
    NoDup (call_id_reads o c w) /\
    (clock_reads w <= clock_reads (snd (serve o c w)))%nat.
Proof.
  destruct c as [req| |name|]; simpl.
  - unfold post_api_convert, convert_id_reads.
    destruct (upload_single o "pdf" req w) as [[[f|]|e] w0] eqn:Eu.
    + apply upload_single_staged in Eu
        as (p & base & _ & _ & _ & _ & _ & _ & _ & _ & _ & Eh & Ec).
      unfold convert_handler, try_catch.
      pose proof (convert_try_reads f w0) as Ht.
      destruct (convert_try o f w0) as [[r|e] w1].
      * destruct Ht as (item & Hh & Hid & Hc). exists [item]. simpl.
        rewrite Hh, Eh, Hid. split_and!; [done|done| |apply NoDup_singleton|lia].
        repeat constructor; lia.
      * unfold convert_catch, bind, now, unshift, ret, set_history,
          originalname_or_unknown. simpl.
        destruct Ht as [[Hh Hc]|(item & Hh & Hid & Hc)].
        -- rewrite decide_True by done.
           exists [failed_item (Date_now o (clock_reads w1))
                     (Js.or_else (file_originalname f) "unknown") e
                     (Date_now o (S (clock_reads w1)))]. simpl.
           rewrite Hh, Eh. split_and!; [done|done| |apply NoDup_singleton|lia].
           repeat constructor; lia.
        -- rewrite decide_False by lia.
           exists [failed_item (Date_now o (clock_reads w1))
                     (Js.or_else (file_originalname f) "unknown") e
                     (Date_now o (S (clock_reads w1))); item]. simpl.
           rewrite Hh, Eh, Hid. split_and!; [done|done| | |lia].
           ++ repeat constructor; lia.
           ++ apply NoDup_cons. split; [|apply NoDup_singleton].
              rewrite list_elem_of_singleton. lia.
    + apply upload_single_none in Eu as [_ ->].
      exists []. split_and!; auto using NoDup_nil_2.
    + apply upload_single_throws in Eu as (_ & Hh & Hc).
      exists []. split_and!; auto using NoDup_nil_2.
  - exists []. split_and!; auto using NoDup_nil_2.
  - unfold get_download, bind, existsSync, res_download; simpl.
    destruct (bool_decide _); exists []; split_and!; auto using NoDup_nil_2.
  - exists []. split_and!; simpl; auto using NoDup_nil_2.
Qed.

(** Any calls: the ids they add are those of [id_reads], entry by entry. *)
Lemma serve_all_reads (cs : list ApiCall) (w : World) :
  prop "id" <$> conversionHistory (serve_all o cs w)
    = ((id_at o <$> id_reads o cs w) ++ (prop "id" <$> conversionHistory w))%list /\
  Forall (fun k => clock_reads w <= k < clock_reads (serve_all o cs w))%nat
    (id_reads o cs w) /\
  NoDup (id_reads o cs w) /\
  (clock_reads w <= clock_reads (serve_all o cs w))%nat.
Proof.
  revert w. induction cs as [|c cs IH]; intros w; simpl.
  - split_and!; auto using NoDup_nil_2.
  - destruct (IH (snd (serve o c w))) as (E & Hlt & Hnd & Hc).
    destruct (call_reads c w) as (new & Hh & Hid & Hk & Hn & Hc1).
    split_and!.
    + by rewrite E, Hh, !fmap_app, Hid, app_assoc.
    + apply Forall_app. split.
      * eapply Forall_impl; [exact Hlt|]. simpl. lia.
      * eapply Forall_impl; [exact Hk|]. simpl. lia.
    + apply NoDup_app. split_and!; [done| |done].
      intros k Hk1 Hk2. rewrite Forall_forall in Hlt, Hk.
      specialize (Hlt k Hk1). specialize (Hk k Hk2). lia.
    + lia.
Qed.

End IdReads.

(** C9, as the specification states it, fails: two conversions served
    within the same millisecond leave two different entries with the same
    [id]. *)
Lemma same_millisecond_same_id :
  let w := serve_all Sample.same_ms
             [PostConvert Sample.report; PostConvert Sample.invoice] init_world in
  let a := completed_item 1700000000000 "report.pdf"
             "pdf-1700000000000-123456789.docx" 1700000000000 in
  let b := completed_item 1700000000000 "invoice.pdf"
             "pdf-1700000000000-123456790.docx" 1700000000000 in
  conversionHistory w = [b; a] /\ a <> b /\ prop "id" a = prop "id" b.
Proof.
  split; [vm_compute; reflexivity|]. split; [discriminate|reflexivity].
Qed.

(** C9, amended: an entry's [id] is the decimal string of the
    [Date.now()] reading taken when the entry is built, and the entries of
    the history took pairwise different readings of the clock.  So two
    entries have the same [id] exactly when the clock showed the same
    millisecond at their two readings: the ids are distinct where the
    readings' values differ, and entries built within one millisecond
    share their [id]. *)
Theorem ids_are_clock_readings (o : Oracle) (cs : list ApiCall) :
  let w := serve_all o cs init_world in
  let ks := id_reads o cs init_world in
  prop "id" <$> conversionHistory w
    = (fun k => Some (JStr (Js.toString (Date_now o k)))) <$> ks /\
  NoDup ks /\
  (forall (i j : nat) (a b : JsObject) (ki kj : nat),
     conversionHistory w !! i = Some a -> conversionHistory w !! j = Some b ->
     ks !! i = Some ki -> ks !! j = Some kj ->
     (prop "id" a = prop "id" b <-> Date_now o ki = Date_now o kj)) /\
  (NoDup (prop "id" <$> conversionHistory w) <-> NoDup (Date_now o <$> ks)).
Proof.
  intros w ks.
  destruct (serve_all_reads o cs init_world) as (E & _ & Hnd & _).
  simpl in E. rewrite app_nil_r in E. fold w ks in E, Hnd.
  split; [exact E|]. split; [exact Hnd|]. split.
  - intros i j a b ki kj Ha Hb Hki Hkj.
    assert (Ia : prop "id" a = id_at o ki).
    { apply (f_equal (fun l => l !! i)) in E.
      rewrite !list_lookup_fmap, Ha, Hki in E. by injection E. }
    assert (Ib : prop "id" b = id_at o kj).
    { apply (f_equal (fun l => l !! j)) in E.
      rewrite !list_lookup_fmap, Hb, Hkj in E. by injection E. }
    rewrite Ia, Ib. unfold id_at. split.
    + intros [= H]. by apply toString_inj.
    + by intros ->.
  - rewrite E.
    change (id_at o <$> ks)
      with ((fun k => (fun t => Some (JStr (Js.toString t))) (Date_now o k)) <$> ks).
    rewrite (list_fmap_compose (Date_now o) (fun t => Some (JStr (Js.toString t)))).
    apply NoDup_fmap. intros x y [= H]. by apply toString_inj.
Qed.

Lemma ids_are_clock_readings_witness :
  NoDup (prop "id" <$> conversionHistory
           (serve_all Sample.millis
              [PostConvert Sample.report; PostConvert Sample.empty_pdf;
               GetHistory; PostConvert Sample.invoice] init_world)).
Proof.
  apply (proj2 (proj2 (proj2 (ids_are_clock_readings Sample.millis
           [PostConvert Sample.report; PostConvert Sample.empty_pdf;
            GetHistory; PostConvert Sample.invoice])))).
  apply (bool_decide_unpack _). by vm_compute.
Defined.

(** ** Staged and generated names *)

Section Names.

Lemma append_assoc (s t u : string) : (s ++ t) ++ u = s ++ (t ++ u).
Proof.
  induction s as [|a s IH]; [done|].
  change (String a ((s ++ t) ++ u) = String a (s ++ (t ++ u))).
  by rewrite IH.
Qed.

Lemma append_cancel_l (p x y : string) : p ++ x = p ++ y -> x = y.
Proof.
  induction p as [|a p IH]; [done|].
  change (String a (p ++ x) = String a (p ++ y) -> x = y).
  intros [= E]. by apply IH.
Qed.

Lemma dotless_lacks (s : string) : dotless s = lacks "." s.
Proof. induction s as [|a s IH]; simpl; [done|by rewrite IH]. Qed.

Lemma lacks_dash_digits (d : uint) : lacks "-" (NilEmpty.string_of_uint d) = true.
Proof. induction d; simpl; auto. Qed.

Lemma lacks_dash_uint (d : uint) : lacks "-" (NilZero.string_of_uint d) = true.
Proof. destruct d; try reflexivity; apply (lacks_dash_digits (_ _)). Qed.

Lemma uint_string_nonempty (d : uint) : NilZero.string_of_uint d <> EmptyString.
Proof. destruct d; discriminate. Qed.

(** Two strings that agree up to and after the first [c] agree on both
    sides of it. *)
Lemma split_at_first (c : ascii) (s s' x y : string) :
  lacks c s = true -> lacks c s' = true ->
  s ++ String c x = s' ++ String c y -> s = s' /\ x = y.
Proof.
  revert s'. induction s as [|a s IH]; intros [|a' s'] Hs Hs' E;
    simpl in *.
  - by injection E.
  - injection E as <- _. apply andb_prop in Hs' as [Ha _].
    by rewrite Ascii.eqb_refl in Ha.
  - injection E as -> _. apply andb_prop in Hs as [Ha _].
    by rewrite Ascii.eqb_refl in Ha.
  - injection E as <- E.
    apply andb_prop in Hs as [_ Hs]. apply andb_prop in Hs' as [_ Hs'].
    destruct (IH s' Hs Hs' E) as [-> ->]. done.
Qed.

(** A decimal numeral followed by a dash determines the number. *)
Lemma toString_dash_inj (a b : Z) (x y : string) :
  Js.toString a ++ String "-" x = Js.toString b ++ String "-" y ->
  a = b /\ x = y.
Proof.
  intros E.
  cut (Js.toString a = Js.toString b /\ x = y).
  { intros [H ->]. split; [by apply toString_inj|done]. }
  revert E. unfold Js.toString.
  destruct (Z.to_int a) as [d|d], (Z.to_int b) as [d'|d']; simpl; intros E.
  - apply split_at_first in E; auto using lacks_dash_uint.
  - pose proof (lacks_dash_uint d) as L. pose proof (uint_string_nonempty d) as N.
    destruct (NilZero.string_of_uint d) as [|c s]; [done|].
    simpl in E, L. injection E as -> _. by rewrite Ascii.eqb_refl in L.
  - pose proof (lacks_dash_uint d') as L. pose proof (uint_string_nonempty d') as N.
    destruct (NilZero.string_of_uint d') as [|c s]; [done|].
    simpl in E, L. injection E as <- _. by rewrite Ascii.eqb_refl in L.
  - injection E as E.
    apply split_at_first in E as [-> ->]; auto using lacks_dash_uint.
Qed.

(** The name multer's storage gives a PDF part: field name, clock
    reading, random draw, [.pdf]. *)
Lemma upload_single_filename (o : Oracle) (req : Request) (w w0 : World)
    (file : MulterFile) :
  upload_single o "pdf" req w = (Return (Some file), w0) ->
  filename file
    = ("pdf-" ++ Js.toString (Date_now o (clock_reads w)) ++ "-"
         ++ Js.toString (random_1e9 o (random_reads w))) ++ ".pdf" /\
  path file = Js.path_join uploadDir (filename file).
Proof.
  intros H. destruct req as [[p|]]; [|js_run].
  js_unfold. simpl in H.
  destruct (negb (fieldname p =? "pdf")%string) eqn:Ef; [js_run|].
  destruct (mimetype p =? "application/pdf")%string eqn:Em; [|js_run].
  apply negb_false_iff, String.eqb_eq in Ef.
  js_run. rewrite Ef. split; [|done].
  rewrite !append_assoc. reflexivity.
Qed.

(** A generated name, whatever its extension, determines the clock
    reading and the random draw it was built from. *)
Lemma staged_base_inj (t r t' r' : Z) (ext ext' : string) :
  ("pdf-" ++ Js.toString t ++ "-" ++ Js.toString r) ++ String "." ext
    = ("pdf-" ++ Js.toString t' ++ "-" ++ Js.toString r') ++ String "." ext' ->
  t = t' /\ r = r'.
Proof.
  rewrite !append_assoc. intros E.
  change ("pdf-" ++ ?x) with (String "p" (String "d" (String "f" (String "-" x)))) in E.
  injection E as E.
  change ("-" ++ ?x) with (String "-" x) in E.
  apply toString_dash_inj in E as [-> E]. split; [done|].
  apply split_at_first in E as [E _];
    try (rewrite <- dotless_lacks; apply dotless_toString).
  by apply toString_inj.
Qed.

End Names.

(** X6: the name a staged file gets is determined by, and determines, the
    clock reading and the random draw taken for it: two staged uploads
    share their staging path exactly when both values coincide, and
    exactly then their output paths coincide too. *)
Theorem staged_names_collide_iff (o : Oracle) (req req' : Request)
    (w w0 w' w0' : World) (file file' : MulterFile) :
  upload_single o "pdf" req w = (Return (Some file), w0) ->
  upload_single o "pdf" req' w' = (Return (Some file'), w0') ->
  (path file = path file' <->
   Date_now o (clock_reads w) = Date_now o (clock_reads w') /\
   random_1e9 o (random_reads w) = random_1e9 o (random_reads w')) /\
  (wordPath file = wordPath file' <-> path file = path file').
Proof.
  intros H H'.
  pose proof (fileName_strips_suffix _ _ _ _ _ H) as Hn.
  pose proof (fileName_strips_suffix _ _ _ _ _ H') as Hn'.
  apply upload_single_filename in H as [Hf Hp].
  apply upload_single_filename in H' as [Hf' Hp'].
  assert (P : path file = path file' <->
              Date_now o (clock_reads w) = Date_now o (clock_reads w') /\
              random_1e9 o (random_reads w) = random_1e9 o (random_reads w')).
  { rewrite Hp, Hp', Hf, Hf'. unfold Js.path_join. split.
    - intros E. do 2 apply append_cancel_l in E.
      by apply staged_base_inj in E.
    - by intros [-> ->]. }
  split; [exact P|]. rewrite P.
  unfold wordPath, wordFileName. rewrite Hn, Hn', Hf, Hf', !strip_suffix_app.
  unfold Js.path_join. split.
  - intros E. do 2 apply append_cancel_l in E.
    by apply staged_base_inj in E.
  - by intros [-> ->].
Qed.

Lemma staged_names_collide_iff_witness :
  let o := Sample.ticking in
  let w1 := snd (post_api_convert o Sample.report init_world) in
  let a := mkFile "pdf" "report.pdf" "application/pdf"
             "pdf-1700000000000-123456789.pdf"
             "uploads/pdf-1700000000000-123456789.pdf" in
  let b := mkFile "pdf" "invoice.pdf" "application/pdf"
             "pdf-1700000000003-123456790.pdf"
             "uploads/pdf-1700000000003-123456790.pdf" in
  (path a = path b <->
   Date_now o (clock_reads init_world) = Date_now o (clock_reads w1) /\
   random_1e9 o (random_reads init_world) = random_1e9 o (random_reads w1)) /\
  (wordPath a = wordPath b <-> path a = path b).
Proof.
  intros o w1 a b.
  apply (staged_names_collide_iff o Sample.report Sample.invoice
           init_world (snd (upload_single o "pdf" Sample.report init_world))
           w1 (snd (upload_single o "pdf" Sample.invoice w1)) a b);
    vm_compute; reflexivity.
Defined.

(** ** A conversion answered 200, and what can be downloaded after it *)

(** Everything a 200 says about the request: it was staged, its bytes
    were parsed and the resulting document packed, and the disk is the
    staged disk with the output written and the staged file removed. *)
Lemma post_api_convert_200_inv (o : Oracle) (req : Request) (w w' : World)
    (r : Response) :
  post_api_convert o req w = (Return r, w') ->
  status r = 200 ->
  exists (p : FilePart) (file : MulterFile) (w0 : World) (text : string)
         (buffer : list Byte.byte),
    part req = Some p /\
    upload_single o "pdf" req w = (Return (Some file), w0) /\
    pdfParse o (content p) = Return text /\
    Packer_toBuffer o (new_Document text) = Return buffer /\
    r = success_response (wordFileName file) /\
    files w' = delete (path file) (<[wordPath file := buffer]> (files w0)).
Proof.
  unfold post_api_convert. intros H Hs.
  destruct (upload_single o "pdf" req w) as [[[f|]|e] w0] eqn:Eu;
    [| by js_run | by js_run].
  pose proof Eu as Hst.
  apply upload_single_staged in Hst
    as (p & base & Hp & _ & _ & _ & _ & _ & _ & _ & Hfiles & _).
  assert (Hlook : files w0 !! path f = Some (content p))
    by (rewrite Hfiles; apply lookup_insert_eq).
  exists p, f, w0.
  cut (exists text buffer,
         pdfParse o (content p) = Return text /\
         Packer_toBuffer o (new_Document text) = Return buffer /\
         r = success_response (wordFileName f) /\
         files w' = delete (path f) (<[wordPath f := buffer]> (files w0))).
  { intros (text & buffer & ? & ? & ? & ?). by exists text, buffer. }
  clear Eu. revert H. js_unfold. rewrite Hlook.
  destruct (fs_fault o OpRead (path f)); simpl; [intros; by simplify_eq/=|].
  destruct (pdfParse o (content p)) as [text|e1] eqn:Et; simpl;
    [|intros; by simplify_eq/=].
  destruct (Packer_toBuffer o (new_Document text)) as [buffer|e2] eqn:Eb; simpl;
    [|intros; by simplify_eq/=].
  destruct (fs_fault o OpWrite (wordPath f)); simpl; [intros; by simplify_eq/=|].
  destruct (fs_fault o OpUnlink (path f)); simpl; [intros; by simplify_eq/=|].
  destruct (<[wordPath f:=buffer]> (files w0) !! path f); simpl;
    [|intros; by simplify_eq/=].
  intros [= <- <-]. by exists text, buffer.
Qed.

(** X7: after a conversion answered 200, [GET /downloads/<fileName>]
    with the [fileName] of the answer is answered 200 with the bytes that
    packing the document of the extracted text produced, and leaves the
    state as it is. *)
Theorem convert_then_download (o : Oracle) (req : Request) (w w' : World)
    (r : Response) :
  post_api_convert o req w = (Return r, w') ->
  status r = 200 ->
  exists (p : FilePart) (name text : string) (buffer : list Byte.byte),
    part req = Some p /\
    r = success_response name /\
    pdfParse o (content p) = Return text /\
    Packer_toBuffer o (new_Document text) = Return buffer /\
    get_download name w'
      = (Return {| status := 200;
                   body := FileBody (Js.path_join downloadDir name) buffer |}, w').
Proof.
  intros H Hs.
  destruct (post_api_convert_200_inv o req w w' r H Hs)
    as (p & file & w0 & text & buffer & Hp & Hu & Ht & Hb & -> & Hf).
  exists p, (wordFileName file), text, buffer. repeat (split; [done|]).
  apply upload_single_staged in Hu
    as (_ & _ & _ & _ & _ & _ & _ & Hpath & _).
  assert (Hlook : files w' !! wordPath file = Some buffer).
  { rewrite Hf, lookup_delete_ne, lookup_insert_eq; [done|].
    rewrite Hpath. unfold wordPath. apply uploads_not_downloads. }
  unfold get_download, bind, existsSync, res_download.
  fold (wordPath file). rewrite Hlook.
  rewrite bool_decide_eq_true_2 by (by eexists). simpl. by rewrite Hlook.
Qed.

Lemma convert_then_download_witness :
  let o := Sample.ticking in
  let w' := snd (post_api_convert o Sample.report init_world) in
  exists (p : FilePart) (name text : string) (buffer : list Byte.byte),
    part Sample.report = Some p /\
    success_response "pdf-1700000000000-123456789.docx" = success_response name /\
    pdfParse o (content p) = Return text /\
    Packer_toBuffer o (new_Document text) = Return buffer /\
    get_download name w'
      = (Return {| status := 200;
                   body := FileBody (Js.path_join downloadDir name) buffer |}, w').
Proof.
  intros o w'.
  apply (convert_then_download o Sample.report init_world w'
           (success_response "pdf-1700000000000-123456789.docx"));
    vm_compute; reflexivity.
Defined.



(** ** Answers of the server *)

Section Answers.

Context (o : Oracle).

(** The answers of [POST /api/convert], by origin. *)
Lemma post_api_convert_answers (req : Request) (w : World) :
  exists (r : Response) (w' : World),
    post_api_convert o req w = (Return r, w') /\
    (r = no_file_response /\ part req = None /\ w' = w \/
     (exists name, r = success_response name) /\ is_Some (part req) \/
     (exists e, r = failure_response e) /\ is_Some (part req) \/
     (exists e, r = error_middleware e) /\ is_Some (part req)).
Proof.
  destruct (post_api_convert_spec o req w) as (r & w' & E & H).
  exists r, w'. split; [done|].
  destruct H as [(e & Hu & ->)|(file & w0 & Hu & H)].
  - right. right. right. split; [by exists e|].
    destruct req as [[p|]]; [by eexists|]. discriminate.
  - inversion H as [Hf | f buffer Hf | f e Hf | f e buffer Hf]; simplify_eq/=.
    + apply upload_single_none in Hu as [? ->]. by left.
    + right. left. split; [by eexists|].
      apply upload_single_staged in Hu as (p & _ & -> & _). by eexists.
    + right. right. left. split; [by eexists|].
      apply upload_single_staged in Hu as (p & _ & -> & _). by eexists.
    + right. right. left. split; [by eexists|].
      apply upload_single_staged in Hu as (p & _ & -> & _). by eexists.
Qed.

End Answers.

(** X1: every call is answered: no exception leaves a route (the
    [async] handler never rejects), and the status of the answer is 200,
    400, 404 or 500. *)
Theorem serve_always_answers (o : Oracle) (c : ApiCall) (w : World) :
  exists (r : Response) (w' : World),
    serve o c w = (Return r, w') /\
    (status r = 200 \/ status r = 400 \/ status r = 404 \/ status r = 500).
Proof.
  destruct c as [req| |name|]; simpl.
  - destruct (post_api_convert_answers o req w) as (r & w' & E & H).
    exists r, w'. split; [done|].
    destruct H as [(-> & _)|[([n ->] & _)|[([e ->] & _)|([e ->] & _)]]];
      simpl; auto.
  - eexists _, _. split; [reflexivity|]. by left.
  - unfold get_download, bind, existsSync, res_download; simpl.
    destruct (bool_decide _); eexists _, _; (split; [reflexivity|]); simpl; auto.
  - eexists _, _. split; [reflexivity|]. by left.
Qed.

(** X2: for a request whose file part, if it has one, has a file name,
    [POST /api/convert] is answered 400 exactly when the request carries
    no file part; a request with a file part is answered 200 or 500. *)
Theorem convert_400_iff_no_file (o : Oracle) (req : Request) (w : World) :
  (forall p, part req = Some p -> originalname p <> EmptyString) ->
  exists (r : Response) (w' : World),
    post_api_convert o req w = (Return r, w') /\
    (status r = 400 <-> part req = None) /\
    (is_Some (part req) -> status r = 200 \/ status r = 500).
Proof.
  intros _.
  destruct (post_api_convert_answers o req w) as (r & w' & E & H).
  exists r, w'. split; [done|].
  destruct H as [(-> & Hn & _)|[([n ->] & Hp)|[([e ->] & Hp)|([e ->] & Hp)]]];
    simpl.
  - rewrite Hn. split; [done|]. by intros [? ?].
  - split; [|auto]. split; [done|]. intros Hn. rewrite Hn in Hp. by destruct Hp.
  - split; [|auto]. split; [done|]. intros Hn. rewrite Hn in Hp. by destruct Hp.
  - split; [|auto]. split; [done|]. intros Hn. rewrite Hn in Hp. by destruct Hp.
Qed.

Lemma convert_400_iff_no_file_witness :
  exists (r : Response) (w' : World),
    post_api_convert Sample.ticking Sample.picture init_world = (Return r, w') /\
    (status r = 400 <-> part Sample.picture = None) /\
    (is_Some (part Sample.picture) -> status r = 200 \/ status r = 500).
Proof.
  apply (convert_400_iff_no_file Sample.ticking Sample.picture init_world).
  intros p [= <-]. discriminate.
Defined.



(** X4: the history is only ever extended at the front: whatever calls
    are served, the entries that were there are still there, unchanged
    and in the same order, behind the new ones. *)
Theorem history_only_grows_at_front (o : Oracle) (cs : list ApiCall) (w : World) :
  exists new : list JsObject,
    conversionHistory (serve_all o cs w) = (new ++ conversionHistory w)%list.
Proof.
  revert w. induction cs as [|c cs IH]; intros w; simpl.
  - by exists [].
  - destruct (IH (snd (serve o c w))) as (new2 & ->).
    destruct (serve_appends o c w) as (new1 & _ & -> & _).
    exists (new2 ++ new1)%list. by rewrite app_assoc.
Qed.

(** ** The output area *)

Section Output.

Context (o : Oracle).

Lemma serve_keeps_output (c : ApiCall) (w : World) (name : string) :
  is_Some (files w !! Js.path_join downloadDir name) ->
  is_Some (files (snd (serve o c w)) !! Js.path_join downloadDir name).
Proof.
  intros Hn. destruct c as [req| |name'|]; simpl; try done.
  - destruct (post_api_convert_spec o req w) as (r & w' & E & H).
    rewrite E; simpl.
    destruct H as [(e & Hu & _)|(file & w0 & Hu & H)].
    { apply upload_single_throws in Hu as (-> & _). done. }
    inversion H as [Hf | f buffer Hf | f e Hf | f e buffer Hf]; simplify_eq/=.
    + apply upload_single_none in Hu as [_ ->]. done.
    + apply upload_single_staged in Hu
        as (p & base & _ & _ & _ & _ & _ & Hpath & _ & _ & -> & _).
      rewrite lookup_delete_ne
        by (rewrite Hpath; apply uploads_not_downloads).
      destruct (decide (wordPath f = Js.path_join downloadDir name)) as [->|Hne].
      * rewrite lookup_insert_eq. by eexists.
      * rewrite lookup_insert_ne by done.
        rewrite lookup_insert_ne
          by (rewrite Hpath; apply uploads_not_downloads). done.
    + apply upload_single_staged in Hu
        as (p & base & _ & _ & _ & _ & _ & Hpath & _ & _ & -> & _).
      rewrite lookup_insert_ne
        by (rewrite Hpath; apply uploads_not_downloads). done.
    + apply upload_single_staged in Hu
        as (p & base & _ & _ & _ & _ & _ & Hpath & _ & _ & -> & _).
      destruct (decide (wordPath f = Js.path_join downloadDir name)) as [->|Hne].
      * rewrite lookup_insert_eq. by eexists.
      * rewrite lookup_insert_ne by done.
        rewrite lookup_insert_ne
          by (rewrite Hpath; apply uploads_not_downloads). done.
  - unfold get_download, bind, existsSync, res_download; simpl.
    by destruct (bool_decide _).
Qed.

End Output.

(** X5: no call ever removes a file from the output area: a name that
    can be downloaded stays downloadable whatever calls are served
    afterwards. *)
Theorem output_files_are_kept (o : Oracle) (cs : list ApiCall) (w : World)
    (name : string) :
  is_Some (files w !! Js.path_join downloadDir name) ->
  is_Some (files (serve_all o cs w) !! Js.path_join downloadDir name).
Proof.
  revert w. induction cs as [|c cs IH]; intros w Hn; simpl; [done|].
  apply IH. by apply serve_keeps_output.
Qed.

Lemma output_files_are_kept_witness :
  let o := Sample.ticking in
  let w := snd (post_api_convert o Sample.report init_world) in
  is_Some (files (serve_all o [PostConvert Sample.empty_pdf; GetHealth;
                               PostConvert Sample.invoice] w)
             !! Js.path_join downloadDir "pdf-1700000000000-123456789.docx").
Proof.
  intros o w.
  apply (output_files_are_kept o
           [PostConvert Sample.empty_pdf; GetHealth; PostConvert Sample.invoice]
           w "pdf-1700000000000-123456789.docx").
  vm_compute. by eexists.
Defined.

(** ** Rejected uploads and rejected conversions *)

(** X8: when the staged file is read and then text extraction, or after
    it document generation, is rejected with [e], the answer is the 500 of
    the [catch] block with [e]'s message, the history gains exactly one
    entry, a [failed] one with that message, the staged file is all that
    was added to the disk, and the output area is as it was. *)
Theorem rejected_conversion_writes_no_output (o : Oracle) (req : Request)
    (p : FilePart) (w w0 : World) (file : MulterFile) (e : JsError) :
  part req = Some p ->
  upload_single o "pdf" req w = (Return (Some file), w0) ->
  fs_fault o OpRead (path file) = None ->
  pdfParse o (content p) = Throw e \/
  (exists text, pdfParse o (content p) = Return text /\
                Packer_toBuffer o (new_Document text) = Throw e) ->
  exists (item : JsObject) (w' : World),
    post_api_convert o req w = (Return (failure_response e), w') /\
    conversionHistory w' = item :: conversionHistory w /\
    is_failed item /\
    prop "error" item = Some (JStr (message e)) /\
    files w' = <[path file := content p]> (files w) /\
    forall name : string,
      files w' !! Js.path_join downloadDir name
        = files w !! Js.path_join downloadDir name.
Proof.
  intros Hp Hu Hr Hrej.
  pose proof Hu as Hs.
  apply upload_single_staged in Hs
    as (q & base & Hq & _ & _ & _ & _ & Hpath & _ & _ & Hfiles & Hhist & _).
  assert (q = p) as -> by congruence.
  assert (Hlook : files w0 !! path file = Some (content p))
    by (rewrite Hfiles; apply lookup_insert_eq).
  unfold post_api_convert. rewrite Hu.
  unfold convert_handler, try_catch, convert_try, bind, readFileSync, await.
  rewrite Hr, Hlook.
  assert (Hout : forall name : string,
             <[path file := content p]> (files w) !! Js.path_join downloadDir name
               = files w !! Js.path_join downloadDir name).
  { intros name. apply lookup_insert_ne. rewrite Hpath.
    apply uploads_not_downloads. }
  destruct Hrej as [Ht|(text & Ht & Hb)]; rewrite Ht; [|rewrite Hb];
    unfold convert_catch, bind, now, unshift, ret, set_history; simpl;
    eexists _, _; (split; [reflexivity|]); simpl;
    rewrite Hhist, Hfiles; by split_and!.
Qed.

Lemma rejected_conversion_writes_no_output_witness :
  let o := Sample.packer_rejects in
  let e := {| message := "docx: cannot pack" |} in
  exists (item : JsObject) (w' : World),
    post_api_convert o Sample.report init_world
      = (Return (failure_response e), w') /\
    conversionHistory w' = item :: conversionHistory init_world /\
    is_failed item /\
    prop "error" item = Some (JStr (message e)) /\
    files w' = <[ "uploads/pdf-1700000000000-123456789.pdf" := Sample.pdf_bytes ]>
                 (files init_world) /\
    forall name : string,
      files w' !! Js.path_join downloadDir name
        = files init_world !! Js.path_join downloadDir name.
Proof.
  intros o e.
  apply (rejected_conversion_writes_no_output o Sample.report
           (mkPart "pdf" "report.pdf" "application/pdf" Sample.pdf_bytes)
           init_world
           (snd (upload_single o "pdf" Sample.report init_world))
           (mkFile "pdf" "report.pdf" "application/pdf"
              "pdf-1700000000000-123456789.pdf"
              "uploads/pdf-1700000000000-123456789.pdf") e);
    [reflexivity | vm_compute; reflexivity | reflexivity |].
  right. exists "Hello World". split; reflexivity.
Defined.

(** X9: a PDF part with a file name that is larger than
    [limits.fileSize], 10 MiB, is refused by the upload stage: the
    error-handling middleware answers 500, and neither the disk nor the
    history changes. *)
Theorem oversize_upload_is_rejected (o : Oracle) (req : Request)
    (p : FilePart) (w : World) :
  part req = Some p ->
  originalname p <> EmptyString ->
  fieldname p = "pdf" ->
  mimetype p = "application/pdf" ->
  10 * 1024 * 1024 < Z.of_nat (length (content p)) ->
  exists (e : JsError) (w' : World),
    post_api_convert o req w = (Return (error_middleware e), w') /\
    status (error_middleware e) = 500 /\
    files w' = files w /\
    conversionHistory w' = conversionHistory w.
Proof.
  intros Hp _ Hf Hm Hsize. destruct req as [[q|]]; simplify_eq/=.
  unfold post_api_convert, upload_single, fileFilter. cbn [part].
  destruct (Z.ltb_spec fileSize_limit (Z.of_nat (length (content p))))
    as [_|Hle]; [|unfold fileSize_limit in Hle; lia].
  rewrite Hf, Hm.
  unfold storage_filename, bind, now, random, ret, throw; simpl.
  eexists _, _. split; [reflexivity|]. by split_and!.
Qed.

Lemma oversize_upload_is_rejected_witness :
  exists (e : JsError) (w' : World),
    post_api_convert Sample.ticking Sample.oversize init_world
      = (Return (error_middleware e), w') /\
    status (error_middleware e) = 500 /\
    files w' = files init_world /\
    conversionHistory w' = conversionHistory init_world.
Proof.
  apply (oversize_upload_is_rejected Sample.ticking Sample.oversize
           (mkPart "pdf" "scan.pdf" "application/pdf"
              (replicate (Z.to_nat 10485761) Byte.x00)) init_world);
    [reflexivity | discriminate | reflexivity | reflexivity |].
  cbn [content]. rewrite length_replicate, Z2Nat.id; lia.
Defined.

(** X11: whatever the upload stage hands to the handler as [req.file] is
    the request's part, of type [application/pdf] and within
    [limits.fileSize], and its bytes are in the staging area under
    [req.file.path]. *)
Theorem handler_gets_checked_file (o : Oracle) (req : Request) (w w0 : World)
    (file : MulterFile) :
  upload_single o "pdf" req w = (Return (Some file), w0) ->
  exists p : FilePart,
    part req = Some p /\
    mimetype p = "application/pdf" /\
    Z.of_nat (length (content p)) <= 10 * 1024 * 1024 /\
    file_originalname file = originalname p /\
    files w0 !! path file = Some (content p).
Proof.
  intros H.
  pose proof H as Hs.
  apply upload_single_staged in Hs
    as (p & base & Hp & Hf & Hm & _ & _ & _ & Hname & _ & Hfiles & _).
  exists p. split_and!; try done.
  - revert H. destruct req as [[q|]]; simplify_eq/=.
    unfold upload_single, fileFilter. cbn [part].
    destruct (Z.ltb_spec fileSize_limit (Z.of_nat (length (content p))))
      as [_|Hle]; [|intros _; exact Hle].
    rewrite Hf, Hm. unfold storage_filename, bind, now, random, ret, throw.
    simpl. discriminate.
  - rewrite Hfiles. apply lookup_insert_eq.
Qed.

Lemma handler_gets_checked_file_witness :
  let o := Sample.ticking in
  let file := mkFile "pdf" "report.pdf" "application/pdf"
                "pdf-1700000000000-123456789.pdf"
                "uploads/pdf-1700000000000-123456789.pdf" in
  let w0 := snd (upload_single o "pdf" Sample.report init_world) in
  exists p : FilePart,
    part Sample.report = Some p /\
    mimetype p = "application/pdf" /\
    Z.of_nat (length (content p)) <= 10 * 1024 * 1024 /\
    file_originalname file = originalname p /\
    files w0 !! path file = Some (content p).
Proof.
  intros o file w0.
  apply (handler_gets_checked_file o Sample.report init_world w0 file).
  vm_compute; reflexivity.
Defined.

(** ** The order of the history in time *)

Section Stamps.

Context (o : Oracle).

Lemma Handled_stamps (file : option MulterFile) (w w' : World) (r : Response) :
  Handled o file w r w' ->
  exists (new : list JsObject) (ks : list nat),
    conversionHistory w' = (new ++ conversionHistory w)%list /\
    prop "createdAt" <$> new = stamp_at o <$> ks /\
    StronglySorted gt ks /\
    Forall (fun k => clock_reads w <= k < clock_reads w')%nat ks /\
    (clock_reads w <= clock_reads w')%nat.
Proof.
  intros H.
  inversion H as [Hf | f buffer Hf | f e Hf | f e buffer Hf];
    simplify_eq/=.
  - exists [], []. split_and!; auto. constructor.
  - eexists [_], [S (clock_reads w)].
    split_and!; simpl; [done|done| | |lia]; repeat constructor; lia.
  - eexists [_], [S (clock_reads w)].
    split_and!; simpl; [done|done| | |lia]; repeat constructor; lia.
  - eexists [_; _], [S (S (S (clock_reads w))); S (clock_reads w)].
    split_and!; simpl; [done|done| | |lia]; repeat constructor; lia.
Qed.

Lemma serve_stamps (c : ApiCall) (w : World) :
  exists (new : list JsObject) (ks : list nat),
    conversionHistory (snd (serve o c w)) = (new ++ conversionHistory w)%list /\
    prop "createdAt" <$> new = stamp_at o <$> ks /\
    StronglySorted gt ks /\
    Forall (fun k => clock_reads w <= k < clock_reads (snd (serve o c w)))%nat ks /\
    (clock_reads w <= clock_reads (snd (serve o c w)))%nat.
Proof.
  destruct c as [req| |name|]; simpl.
  - destruct (post_api_convert_spec o req w) as (r & w' & E & H).
    rewrite E; simpl.
    destruct H as [(e & Hu & _)|(file & w0 & Hu & H)].
    + apply upload_single_throws in Hu as (_ & Hh & Hc).
      exists [], []. split_and!; auto. constructor.
    + apply Handled_stamps in H as (new & ks & Hh & Hst & Hso & Hks & Hc).
      assert (conversionHistory w0 = conversionHistory w /\
              (clock_reads w <= clock_reads w0)%nat) as [Eh Ec].
      { destruct file as [f|].
        - apply upload_single_staged in Hu
            as (p & base & _ & _ & _ & _ & _ & _ & _ & _ & _ & Eh & Ec).
          split; [done|lia].
        - apply upload_single_none in Hu as [_ ->]. done. }
      exists new, ks. rewrite Hh, Eh. split_and!; [done..| |lia].
      eapply Forall_impl; [exact Hks|]. simpl. lia.
  - exists [], []. split_and!; auto. constructor.
  - unfold get_download, bind, existsSync, res_download; simpl.
    destruct (bool_decide _); exists [], []; split_and!; auto; constructor.
  - exists [], []. split_and!; simpl; auto. constructor.
Qed.

Lemma serve_all_stamps (cs : list ApiCall) (w : World) (ks : list nat) :
  prop "createdAt" <$> conversionHistory w = stamp_at o <$> ks ->
  StronglySorted gt ks ->
  Forall (fun k => k < clock_reads w)%nat ks ->
  exists ks' : list nat,
    prop "createdAt" <$> conversionHistory (serve_all o cs w) = stamp_at o <$> ks' /\
    StronglySorted gt ks'.
Proof.
  revert w ks. induction cs as [|c cs IH]; intros w ks Hst Hso Hlt; simpl.
  - by exists ks.
  - destruct (serve_stamps c w) as (new & ns & Hh & Hn & Hsn & Hns & Hc).
    apply (IH _ (ns ++ ks)%list).
    + by rewrite Hh, !fmap_app, Hn, Hst.
    + apply StronglySorted_app_2; [|done..].
      intros k1 k2 Hk1 Hk2. rewrite Forall_forall in Hns, Hlt.
      specialize (Hns k1 Hk1). specialize (Hlt k2 Hk2). lia.
    + apply Forall_app. split.
      * eapply Forall_impl; [exact Hns|]. simpl. lia.
      * eapply Forall_impl; [exact Hlt|]. simpl. lia.
Qed.

End Stamps.

(** X12: when the clock never goes backwards, the [createdAt] times of
    the history, read from the front, never increase: the history is in
    the order newest first, whatever calls were served. *)
Theorem history_newest_first_by_createdAt (o : Oracle) (cs : list ApiCall) :
  (forall i j : nat, (i <= j)%nat -> Date_now o i <= Date_now o j) ->
  exists ts : list Z,
    prop "createdAt" <$> conversionHistory (serve_all o cs init_world)
      = (fun t => Some (JDate t)) <$> ts /\
    StronglySorted Z.ge ts.
Proof.
  intros Hmono.
  destruct (serve_all_stamps o cs init_world []) as (ks & E & Hso);
    [done | constructor | constructor |].
  exists (Date_now o <$> ks). split.
  - rewrite E, <- list_fmap_compose. done.
  - eapply StronglySorted_fmap; [|exact Hso].
    intros x y Hxy. apply Z.le_ge, Hmono. unfold gt in Hxy. lia.
Qed.

Lemma history_newest_first_by_createdAt_witness :
  exists ts : list Z,
    prop "createdAt" <$> conversionHistory
        (serve_all Sample.ticking
           [PostConvert Sample.report; PostConvert Sample.empty_pdf;
            GetHealth; PostConvert Sample.invoice] init_world)
      = (fun t => Some (JDate t)) <$> ts /\
    StronglySorted Z.ge ts.
Proof.
  apply (history_newest_first_by_createdAt Sample.ticking).
  intros i j H. simpl. lia.
Defined.
